(** * Ticket overlay tool: QR detection cascade, region geometry,
      overlay alpha mask and ticket-fragment placement.

    Shallow embedding of [app.py] (class [TicketProcessor] and the
    [/process] route), [standalone.py] (class [SimpleTicketOverlay] and its
    [main]) and [complete_qr_extractor.py] (class [CompleteQRExtractor]).

    Conventions.
    - Python [int] values are [Z]; [//] is [Z.div] (floor division).
    - Python [float] values ([opacity], [qr_scale], [page.rect.width], the
      quotients [x / 2]) are rationals [Q] with exact arithmetic, and
      [int(f)] is truncation toward zero, [py_int].  The inputs at which
      the code is evaluated to refute a statement (0.25, 1.5, halves of
      integers) are dyadic, so the binary floating-point results coincide
      with the exact ones there.
    - A call into OpenCV / pyzbar either returns a value or raises; this is
      the type [outcome].  The libraries themselves are Section variables. *)

From Stdlib Require Import ZArith QArith Qround List String Bool Lia.
From Stdlib Require Import Ascii DecimalString.
From Stdlib Require Finite DecimalPos DecimalN.
From Stdlib Require Import Permutation.
Import ListNotations.
Open Scope Z_scope.

(* ===================================================================== *)
(** ** Python primitives *)
(* ===================================================================== *)

Module Py.

(** [int(f)] for a float [f]: truncation toward zero. *)
Definition py_int (q : Q) : Z := Z.quot (Qnum q) (Zpos (Qden q)).

(** [min(a, b)] on numbers: the first argument unless the second is
    strictly smaller. *)
Definition py_min (a b : Q) : Q := if Qle_bool a b then a else b.

(** [n / d] for two ints: true division, a float. *)
Definition truediv (n d : Z) : Q := inject_Z n / inject_Z d.

(** Result of a computation that may raise an exception. *)
Inductive outcome (A : Type) : Type :=
| Ok (a : A)
| Raise.
Arguments Ok {A} a.
Arguments Raise {A}.

Definition bind {A B} (m : outcome A) (k : A -> outcome B) : outcome B :=
  match m with
  | Ok a => k a
  | Raise => Raise
  end.

(** [not xs] for a list: true exactly on the empty list. *)
Definition py_not {A} (xs : list A) : bool :=
  match xs with
  | [] => true
  | _ :: _ => false
  end.

End Py.
Export Py.

Notation "x <- m ;; k" := (bind m (fun x => k))
(at level 61, m at next level, right associativity).

(* ===================================================================== *)
(** ** Region geometry *)
(* ===================================================================== *)

Module Geometry.

(** [obj.rect] of a decoded symbol, in zoomed raster coordinates. *)
Record Rect := mkRect { left : Z; top : Z; rwidth : Z; rheight : Z }.

(** The rasteriser zoom: [fitz.Matrix(2, 2)]. *)
Definition ZOOM : Z := 2.

(** Entries of [qr_regions] in [extract_complete_qr_boxes]. *)
Record QRRegion := mkQR {
  qr_x : Z; qr_y : Z; qr_width : Z; qr_height : Z; data : string }.

(** Raster to page space as [extract_complete_qr_boxes] does it,
    [x // 2] and so on; the divisor is the zoom. *)
Definition toPageSpace (zoom : Z) (r : Rect) (payload : string) : QRRegion :=
  {| qr_x := left r / zoom;
     qr_y := top r / zoom;
     qr_width := rwidth r / zoom;
     qr_height := rheight r / zoom;
     data := payload |}.

(** Raster to page space on the overlay path: [extract_pdf_info] stores
    the float [x / 2] and [apply_overlay] takes [int(qr['x'])];
    [SimpleTicketOverlay.process_pdf] writes [int(qr['x'] / 2)]. *)
Definition to_page_units (zoom v : Z) : Z := py_int (truediv v zoom).

(** Entries of [complete_boxes]; [image] is filled in later. *)
Record CompleteBox (Img : Type) := mkBox {
  x : Z; y : Z; width : Z; height : Z; qr_data : string;
  image : option Img }.
Arguments mkBox {Img}.
Arguments x {Img}.
Arguments y {Img}.
Arguments width {Img}.
Arguments height {Img}.
Arguments qr_data {Img}.
Arguments image {Img}.

Definition text_height : Z := 80.
Definition side_padding : Z := 20.
Definition bottom_padding : Z := 10.

(** Body of the expansion loop of [extract_complete_qr_boxes];
    [page_w], [page_h] are [page.rect.width], [page.rect.height]. *)
Definition expand_box {Img} (page_w page_h : Q) (qr : QRRegion)
  : CompleteBox Img :=
  let box_x := Z.max 0 (qr_x qr - side_padding) in
  let box_y := Z.max 0 (qr_y qr - text_height) in
  let box_width := qr_width qr + 2 * side_padding in
  let box_height := qr_height qr + text_height + bottom_padding in
  let box_x := Z.max 0 box_x in
  let box_y := Z.max 0 box_y in
  let box_width := py_min (inject_Z box_width) (page_w - inject_Z box_x) in
  let box_height := py_min (inject_Z box_height) (page_h - inject_Z box_y) in
  {| x := box_x; y := box_y;
     width := py_int box_width; height := py_int box_height;
     qr_data := data qr; image := None |}.

(** The padded rectangle [x1, y1, x2, y2] of [apply_overlay] and of
    [SimpleTicketOverlay.process_pdf], for a page-space region. *)
Definition protection_bounds (page_width page_height padding : Z)
           (x y w h : Z) : Z * Z * Z * Z :=
  let x1 := Z.max 0 (x - padding) in
  let y1 := Z.max 0 (y - padding) in
  let x2 := Z.min page_width (x + w + padding) in
  let y2 := Z.min page_height (y + h + padding) in
  (x1, y1, x2, y2).

(** A box lies on the page and has no negative extent. *)
Definition box_on_page {Img} (page_w page_h : Q) (b : CompleteBox Img)
  : Prop :=
  0 <= x b /\ 0 <= y b /\ 0 <= width b /\ 0 <= height b /\
  (inject_Z (x b + width b) <= page_w)%Q /\
  (inject_Z (y b + height b) <= page_h)%Q.

Definition bounds_on_page (page_width page_height : Z)
           (r : Z * Z * Z * Z) : Prop :=
  let '(x1, y1, x2, y2) := r in
  0 <= x1 <= page_width /\ 0 <= y1 <= page_height /\
  0 <= x2 <= page_width /\ 0 <= y2 <= page_height /\
  0 <= x2 - x1 /\ 0 <= y2 - y1.

End Geometry.

(* ===================================================================== *)
(** ** QR detector of the web service ([app.py]) *)
(* ===================================================================== *)

Module Detector.
Import Geometry.

(** The three detection methods of [_detect_qr_codes]. *)
Inductive Method := DirectDecode | EnhancedDecode | ContourFallback.

(** A decoded symbol as pyzbar returns it: [obj.rect], [obj.data]. *)
Record Decoded := mkDecoded { rect : Rect; raw : string }.

(** Entries of [qr_codes]: [{'bbox': (x, y, w, h), 'data': ...}]. *)
Record Region := mkRegion { bbox : Rect; payload : string }.

(** What the running method can see and change: its local result list
    ([qr_codes], or [qr_regions] inside [_detect_qr_by_contours]) and the
    lines printed so far.  [ran] is a ghost field: the methods whose block
    has been entered, in order. *)
Record Frame := mkFrame {
  regions : list Region; stdout : list string; ran : list Method }.

(** Statements: they may raise, and what they did to the frame before
    raising stays done. *)
Definition M (A : Type) : Type := Frame -> outcome A * Frame.

Definition ret {A} (a : A) : M A := fun st => (Ok a, st).

Definition seq {A B} (m : M A) (k : A -> M B) : M B :=
  fun st =>
    match m st with
    | (Ok a, st') => k a st'
    | (Raise, st') => (Raise, st')
    end.

Notation "x <~ m ;; k" := (seq m (fun x => k))
  (at level 61, m at next level, right associativity).
Notation "m >> k" := (seq m (fun _ => k))
  (at level 61, right associativity).

(** A library call made from a statement. *)
Definition lift {A} (o : outcome A) : M A := fun st => (o, st).

Definition get_regions : M (list Region) := fun st => (Ok (regions st), st).

(** [qr_codes.append(r)] *)
Definition append (r : Region) : M unit :=
  fun st => (Ok tt, mkFrame (regions st ++ [r]) (stdout st) (ran st)).

(** [qr_codes.extend(rs)] *)
Definition extend (rs : list Region) : M unit :=
  fun st => (Ok tt, mkFrame (regions st ++ rs) (stdout st) (ran st)).

Definition print (line : string) : M unit :=
  fun st => (Ok tt, mkFrame (regions st) (stdout st ++ [line]) (ran st)).

Definition mark (m : Method) : M unit :=
  fun st => (Ok tt, mkFrame (regions st) (stdout st) (ran st ++ [m])).

(** [try: body  except Exception as e: handler] *)
Definition try_except (body handler : M unit) : M unit :=
  fun st =>
    match body st with
    | (Raise, st') => handler st'
    | done => done
    end.

(** [for a in l: body(a)] *)
Fixpoint for_each {A} (body : A -> M unit) (l : list A) : M unit :=
  match l with
  | [] => ret tt
  | a :: l' => body a >> for_each body l'
  end.

(** A method call: the callee works on a result list of its own, which
    starts empty and is what it returns; printing is shared. *)
Definition call (callee : M unit) : M (list Region) :=
  fun st =>
    let '(o, st') := callee (mkFrame [] (stdout st) (ran st)) in
    let back := mkFrame (regions st) (stdout st') (ran st') in
    match o with
    | Ok _ => (Ok (regions st'), back)
    | Raise => (Raise, back)
    end.

Definition Qlt_bool (a b : Q) : bool := negb (Qle_bool b a).

(** A statement that never looks at the frame: it appends a fixed list
    of regions, prints nothing, and its outcome is fixed too. *)
Definition appends_only {A} (m : M A) : Prop :=
  exists (o : outcome A) (added : list Region),
    forall st, m st = (o, mkFrame (regions st ++ added) (stdout st) (ran st)).

(** The regions of the first list that has any, in the given order. *)
Fixpoint first_yielding (yields : list (list Region)) : list Region :=
  match yields with
  | [] => []
  | y :: rest => if py_not y then first_yielding rest else y
  end.

Section Libraries.

(** Pixel buffers ([np.ndarray]) and contours, and the OpenCV / pyzbar
    entry points the detector calls. *)
Variable Image : Type.
Variable Contour : Type.

(** [pyzbar.decode(image)] *)
Variable pyzbar_decode : Image -> outcome (list Decoded).
(** [bytes.decode('utf-8')] *)
Variable utf8_decode : string -> outcome string.
(** [cv2.cvtColor(image, cv2.COLOR_BGR2GRAY)] *)
Variable cvtColor_gray : Image -> outcome Image.
(** [cv2.threshold(gray, 127, 255, cv2.THRESH_BINARY)], second component *)
Variable threshold_127 : Image -> outcome Image.
(** [cv2.Canny(gray, 50, 150)] followed by [cv2.findContours] *)
Variable canny_contours : Image -> outcome (list Contour).
(** [cv2.approxPolyDP] of a contour; [Some] of [cv2.boundingRect(approx)]
    when [len(approx) == 4] *)
Variable approx_quad : Contour -> outcome (option Rect).
(** [_is_likely_qr(gray[y:y+h, x:x+w])]; it has a bare [except] of its
    own and so always answers *)
Variable _is_likely_qr : Image -> Rect -> bool.

(** [obj.data.decode('utf-8') if obj.data else ''] *)
Definition data_of (obj : Decoded) : outcome string :=
  match raw obj with
  | EmptyString => Ok EmptyString
  | _ => utf8_decode (raw obj)
  end.

(** The loop over [decoded_objects], shared by methods 1 and 2. *)
Definition append_decoded (decoded_objects : list Decoded) : M unit :=
  for_each (fun obj =>
              text <~ lift (data_of obj) ;;
              append (mkRegion (rect obj) text))
           decoded_objects.

(** Body of the [try] of method 1. *)
Definition direct_body (image : Image) : M unit :=
  decoded_objects <~ lift (pyzbar_decode image) ;;
  append_decoded decoded_objects.

(** Body of the [try] of method 2. *)
Definition enhanced_body (image : Image) : M unit :=
  gray <~ lift (cvtColor_gray image) ;;
  thresh <~ lift (threshold_127 gray) ;;
  decoded_objects <~ lift (pyzbar_decode thresh) ;;
  append_decoded decoded_objects.

(** [aspect_ratio = w / float(h)]: raises on [h = 0]. *)
Definition aspect_ratio (w h : Z) : outcome Q :=
  if h =? 0 then Raise else Ok (truediv w h).

(** [0.8 < aspect_ratio < 1.2 and w > 50 and h > 50] *)
Definition squarish (aspect : Q) (w h : Z) : bool :=
  Qlt_bool (8 # 10) aspect && Qlt_bool aspect (12 # 10)
  && (50 <? w) && (50 <? h).

(** Body of the loop over [contours]. *)
Definition contour_step (gray : Image) (contour : Contour) : M unit :=
  approx <~ lift (approx_quad contour) ;;
  match approx with
  | Some r =>
      aspect <~ lift (aspect_ratio (rwidth r) (rheight r)) ;;
      if squarish aspect (rwidth r) (rheight r) then
        if _is_likely_qr gray r then append (mkRegion r EmptyString)
        else ret tt
      else ret tt
  | None => ret tt
  end.

Definition contours_body (image : Image) : M unit :=
  gray <~ lift (cvtColor_gray image) ;;
  contours <~ lift (canny_contours gray) ;;
  for_each (contour_step gray) contours.

Definition _detect_qr_by_contours (image : Image) : M (list Region) :=
  call (try_except (contours_body image)
                   (print "Error in contour detection")).

Definition _detect_qr_codes (image : Image) : M (list Region) :=
  mark DirectDecode >>
  try_except (direct_body image) (print "Error in direct QR detection") >>
  (qr_codes <~ get_regions ;;
   if py_not qr_codes then
     mark EnhancedDecode >>
     try_except (enhanced_body image)
                (print "Error in enhanced QR detection")
   else ret tt) >>
  (qr_codes <~ get_regions ;;
   if py_not qr_codes then
     mark ContourFallback >>
     (found <~ _detect_qr_by_contours image ;; extend found)
   else ret tt) >>
  get_regions.

(** A call of [_detect_qr_codes]: [qr_codes = []] on entry. *)
Definition detect (image : Image) : outcome (list Region) * Frame :=
  _detect_qr_codes image (mkFrame [] [] []).

(** What one method appends when it runs on an empty [qr_codes]. *)
Definition yield_of (body : M unit) : list Region :=
  regions (snd (body (mkFrame [] [] []))).

Definition direct_yield (image : Image) : list Region :=
  yield_of (try_except (direct_body image) (ret tt)).

Definition enhanced_yield (image : Image) : list Region :=
  yield_of (try_except (enhanced_body image) (ret tt)).

Definition contour_yield (image : Image) : list Region :=
  yield_of (try_except (contours_body image) (ret tt)).

End Libraries.

End Detector.

(* ===================================================================== *)
(** ** Overlay alpha mask ([apply_overlay], [SimpleTicketOverlay.process_pdf]) *)
(* ===================================================================== *)

Module Compositor.
Import Geometry.

(** A single-channel (mode ['L']) image: its size and the sample at
    column [px], row [py]. *)
Record Alpha := mkAlpha { awidth : Z; aheight : Z; value_at : Z -> Z -> Z }.

(** Pillow stores 8-bit samples: values given to it are clipped. *)
Definition clip8 (v : Z) : Z := Z.max 0 (Z.min 255 v).

(** [Image.new('L', (w, h), fill)] *)
Definition new_L (w h fill : Z) : Alpha :=
  mkAlpha w h (fun _ _ => clip8 fill).

Definition in_rectangle (x1 y1 x2 y2 px py : Z) : bool :=
  (x1 <=? px) && (px <=? x2) && (y1 <=? py) && (py <=? y2).

(** [ImageDraw.Draw(alpha).rectangle([x1, y1, x2, y2], fill=fill)]: both
    corners belong to the rectangle; Pillow raises [ValueError] unless
    [x1 <= x2] and [y1 <= y2]. *)
Definition rectangle (alpha : Alpha) (x1 y1 x2 y2 fill : Z) : outcome Alpha :=
  if (x2 <? x1) || (y2 <? y1) then Raise
  else Ok (mkAlpha (awidth alpha) (aheight alpha)
             (fun px py => if in_rectangle x1 y1 x2 y2 px py then clip8 fill
                           else value_at alpha px py)).

(** [alpha.point(f)]: every sample goes through the table of [f]. *)
Definition point (alpha : Alpha) (f : Z -> Z) : Alpha :=
  mkAlpha (awidth alpha) (aheight alpha)
          (fun px py => clip8 (f (value_at alpha px py))).

(** Entries of [page_info['qr_codes']] built by [extract_pdf_info]. *)
Record PdfCoords := mkCoords {
  cx : Q; cy : Q; cwidth : Q; cheight : Q; cdata : string }.

(** [extract_pdf_info]: [x / 2] and so on, floats. *)
Definition pdf_coords (qr : Detector.Region) : PdfCoords :=
  let r := Detector.bbox qr in
  {| cx := truediv (left r) 2; cy := truediv (top r) 2;
     cwidth := truediv (rwidth r) 2; cheight := truediv (rheight r) 2;
     cdata := Detector.payload qr |}.

(** [apply_overlay]: the integer region [x, y, w, h] of one entry. *)
Definition page_region (qr : PdfCoords) : Z * Z * Z * Z :=
  (py_int (cx qr), py_int (cy qr), py_int (cwidth qr), py_int (cheight qr)).

(** Entries of [qr_codes] in [SimpleTicketOverlay.detect_qr_codes],
    raster coordinates. *)
Record RasterCode := mkCode {
  rx : Z; ry : Z; rw : Z; rh : Z; rdata : string }.

(** [SimpleTicketOverlay.process_pdf]: [int(qr['x'] / 2)] and so on. *)
Definition scaled_region (qr : RasterCode) : Z * Z * Z * Z :=
  (py_int (truediv (rx qr) 2), py_int (truediv (ry qr) 2),
   py_int (truediv (rw qr) 2), py_int (truediv (rh qr) 2)).

(** The loop "make QR areas transparent" over integer regions. *)
Fixpoint punch (page_width page_height padding : Z)
         (boxes : list (Z * Z * Z * Z)) (alpha : Alpha) : outcome Alpha :=
  match boxes with
  | [] => Ok alpha
  | (x, y, w, h) :: rest =>
      let '(x1, y1, x2, y2) :=
        protection_bounds page_width page_height padding x y w h in
      alpha' <- rectangle alpha x1 y1 x2 y2 0 ;;
      punch page_width page_height padding rest alpha'
  end.

(** The two branches of the overlay for one page.  [design_alpha] is
    [page_design.split()[-1]], the alpha band of the resized design. *)
Definition overlay_alpha (page_width page_height : Z) (design_alpha : Alpha)
           (boxes : list (Z * Z * Z * Z)) (opacity : Q) (padding : Z)
  : outcome Alpha :=
  if py_not boxes then
    Ok (point design_alpha (fun p => py_int (inject_Z p * opacity)))
  else
    punch page_width page_height padding boxes
          (new_L page_width page_height (py_int (255 * opacity))).

(** [TicketProcessor.apply_overlay], alpha of one page. *)
Definition apply_overlay_alpha (page_rect_width page_rect_height : Q)
           (design_alpha : Alpha) (qr_codes : list PdfCoords)
           (opacity : Q) (padding : Z) : outcome Alpha :=
  overlay_alpha (py_int page_rect_width) (py_int page_rect_height)
                design_alpha (map page_region qr_codes) opacity padding.

(** [SimpleTicketOverlay.process_pdf], alpha of one page. *)
Definition process_pdf_alpha (page_rect_width page_rect_height : Q)
           (design_alpha : Alpha) (qr_codes : list RasterCode)
           (opacity : Q) (padding : Z) : outcome Alpha :=
  overlay_alpha (py_int page_rect_width) (py_int page_rect_height)
                design_alpha (map scaled_region qr_codes) opacity padding.

(** A pixel lies in one of the padded, page-clamped rectangles, corner
    pixels included. *)
Definition protectedb (page_width page_height padding : Z)
           (boxes : list (Z * Z * Z * Z)) (px py : Z) : bool :=
  existsb (fun '(x, y, w, h) =>
             let '(x1, y1, x2, y2) :=
               protection_bounds page_width page_height padding x y w h in
             in_rectangle x1 y1 x2 y2 px py) boxes.

(** Rounding to the nearest integer, ties to the even one: what the
    specification's [round] denotes (Python's [round]). *)
Definition round_half_even (q : Q) : Z :=
  let f := Qfloor q in
  match ((q - inject_Z f) ?= (1 # 2))%Q with
  | Lt => f
  | Gt => f + 1
  | Eq => if Z.even f then f else f + 1
  end.

(** The mask the specification describes, for a given way [rnd] of
    turning the scaled sample into an integer. *)
Definition alpha_as_specified (rnd : Q -> Z) (page_width page_height : Z)
           (design_alpha : Alpha) (boxes : list (Z * Z * Z * Z))
           (opacity : Q) (padding : Z) (alpha : Alpha) : Prop :=
  forall px py, 0 <= px < page_width -> 0 <= py < page_height ->
    value_at alpha px py =
      match boxes with
      | [] => rnd (inject_Z (value_at design_alpha px py) * opacity)%Q
      | _ => if protectedb page_width page_height padding boxes px py
             then 0 else rnd (255 * opacity)%Q
      end.

(** The regions lie on the page. *)
Definition region_on_page (page_width page_height : Z)
           (r : Z * Z * Z * Z) : Prop :=
  let '(x, y, w, h) := r in
  0 <= x <= page_width /\ 0 <= y <= page_height /\ 0 <= w /\ 0 <= h.

End Compositor.

(* ===================================================================== *)
(** ** Command surface: [standalone.main] and the [/process] route *)
(* ===================================================================== *)

Module Cli.

(** The file system (paths that exist) and the console. *)
Record World := mkWorld { files : list string; console : list string }.

Definition path_exists (w : World) (p : string) : bool :=
  existsb (String.eqb p) (files w).

Definition say (line : string) (w : World) : World :=
  mkWorld (files w) (console w ++ [line]).

Definition create (p : string) (w : World) : World :=
  mkWorld (p :: files w) (console w).

(** Parsed arguments of [standalone.py]. *)
Record Args := mkArgs {
  pdf : string; design : string; output : string;
  opacity : Q; padding : Z; verbose : bool }.

(** How a run ends: [sys.exit(code)] or falling off the end. *)
Inductive Status := Exit (code : Z) | Finished.

(** A field of the JSON body of [/process]. *)
Inductive Field (A : Type) := Missing | Given (a : A) | Malformed.
Arguments Missing {A}.
Arguments Given {A} a.
Arguments Malformed {A}.

Record ProcessRequest := mkRequest {
  pdf_filename : string; design_filename : string;
  req_opacity : Field Q; req_padding : Field Z }.

Inductive Response := SendFile (path : string) | JsonError (status : Z).

Definition UPLOAD_FOLDER : string := "uploads".
Definition PROCESSED_FOLDER : string := "processed".

(** [os.path.join(folder, name)] for a relative [name]. *)
Definition path_join (folder name : string) : string :=
  (folder ++ "/" ++ name)%string.

(** [float(data.get(key, default))] and [int(data.get(key, default))] *)
Definition field_or {A} (f : Field A) (default : A) : outcome A :=
  match f with
  | Missing => Ok default
  | Given a => Ok a
  | Malformed => Raise
  end.

Section Compositors.

(** [os.path.dirname] *)
Variable dirname : string -> string.
(** [SimpleTicketOverlay.process_pdf] and [TicketProcessor.apply_overlay]
    as seen from the command surface: they read the two inputs, and save
    to the output path or raise. *)
Variable process_pdf :
  string -> string -> string -> Q -> Z -> World -> outcome bool * World.
Variable apply_overlay :
  string -> string -> string -> Q -> Z -> World -> outcome string * World.

(** [not 0 <= args.opacity <= 1] *)
Definition opacity_out_of_range (o : Q) : bool :=
  negb (Qle_bool 0 o && Qle_bool o 1).

Definition makedirs_for (out : string) (w : World) : World :=
  let output_dir := dirname out in
  match output_dir with
  | EmptyString => w
  | _ => if path_exists w output_dir then w else create output_dir w
  end.

(** [standalone.main] after argument parsing. *)
Definition main (args : Args) (w : World) : Status * World :=
  if negb (path_exists w (pdf args)) then
    (Exit 1, say ("Error: PDF file not found: " ++ pdf args)%string w)
  else if negb (path_exists w (design args)) then
    (Exit 1, say ("Error: Design file not found: " ++ design args)%string w)
  else if opacity_out_of_range (opacity args) then
    (Exit 1, say "Error: Opacity must be between 0.0 and 1.0" w)
  else
    let w := makedirs_for (output args) w in
    match process_pdf (pdf args) (design args) (output args)
                      (opacity args) (padding args) w with
    | (Ok true, w') =>
        (Finished,
         say ("Success! Modified PDF saved to: " ++ output args)%string w')
    | (Ok false, w') => (Finished, w')
    | (Raise, w') => (Exit 1, say "Error" w')
    end.

(** The [/process] route: [process_overlay]. *)
Definition process_overlay (data : ProcessRequest) (w : World)
  : Response * World :=
  match field_or (req_opacity data) (7 # 10) with
  | Raise => (JsonError 500, w)
  | Ok opacity =>
      match field_or (req_padding data) 15 with
      | Raise => (JsonError 500, w)
      | Ok padding =>
          let pdf_path := path_join UPLOAD_FOLDER (pdf_filename data) in
          let design_path := path_join UPLOAD_FOLDER (design_filename data) in
          let output_filename := ("modified_" ++ pdf_filename data)%string in
          let output_path := path_join PROCESSED_FOLDER output_filename in
          match apply_overlay pdf_path design_path output_path
                              opacity padding w with
          | (Ok _, w') => (SendFile output_path, w')
          | (Raise, w') => (JsonError 500, w')
          end
      end
  end.

End Compositors.

End Cli.

(* ===================================================================== *)
(** ** Ticket-fragment mode ([complete_qr_extractor.py]) *)
(* ===================================================================== *)

Module Extractor.
Import Geometry.

Fixpoint zeros (n : nat) : string :=
  match n with
  | O => EmptyString
  | S n' => String "0"%char (zeros n')
  end.

(** Left-pad with ["0"] up to [width] characters. *)
Definition zfill (width : nat) (s : string) : string :=
  (zeros (width - String.length s) ++ s)%string.

(** [f"{n:03d}"]: the sign counts toward the width. *)
Definition format_03d (n : Z) : string :=
  let digits := NilZero.string_of_uint (N.to_uint (Z.abs_N n)) in
  if n <? 0 then String "-"%char (zfill 2 digits) else zfill 3 digits.

(** [for a in l] where the body may raise: all results or the exception. *)
Fixpoint map_outcome {A B} (f : A -> outcome B) (l : list A)
  : outcome (list B) :=
  match l with
  | [] => Ok []
  | a :: l' => b <- f a ;; bs <- map_outcome f l' ;; Ok (b :: bs)
  end.

Definition positions_to_place (qr_position : string) : list string :=
  if (qr_position =? "left")%string then ["left"%string]
  else if (qr_position =? "right")%string then ["right"%string]
  else if (qr_position =? "both")%string then ["left"%string; "right"%string]
  else [].

(** Body of the placement loop up to "ensure it fits": [(box_x, box_y)]. *)
Definition place_at (design_width design_height new_width new_height
                     qr_margin : Z) (position : string) : Z * Z :=
  let '(box_x, box_y) :=
    if (position =? "left")%string
    then (qr_margin, design_height - new_height - qr_margin)
    else (design_width - new_width - qr_margin,
          design_height - new_height - qr_margin) in
  let box_y := if box_y <? 0 then qr_margin else box_y in
  let box_x := if box_x <? 0 then qr_margin else box_x in
  (box_x, box_y).

(** Re-clamping as the specification words it: a coordinate that came
    out negative is replaced by the margin. *)
Definition reclamp (margin v : Z) : Z := if v <? 0 then margin else v.

(** The positions at which one fragment is placed on its page. *)
Definition planPlacements (design_width design_height new_width new_height
                           qr_margin : Z) (qr_position : string)
  : list (Z * Z) :=
  map (place_at design_width design_height new_width new_height qr_margin)
      (positions_to_place qr_position).

Section Libraries.

(** Input pages, grayscale rasters and PNG byte strings, with the
    PyMuPDF / OpenCV / pyzbar calls made on them. *)
Variable Page : Type.
Variable Image : Type.
Variable Png : Type.

(** [page.rect.width], [page.rect.height] *)
Variable page_rect : Page -> Q * Q.
(** [page.get_pixmap(matrix=fitz.Matrix(2, 2))] decoded by OpenCV and
    converted to grayscale *)
Variable render_gray : Page -> outcome Image.
Variable pyzbar_decode : Image -> outcome (list Detector.Decoded).
Variable threshold_127 : Image -> outcome Image.
Variable utf8_decode : string -> outcome string.
(** [page.get_pixmap(clip=fitz.Rect(x, y, x + w, y + h),
    matrix=fitz.Matrix(2, 2)).tobytes("png")] *)
Variable clip_png : Page -> Z -> Z -> Z -> Z -> outcome Png.
(** size of the picture [Image.open] reads from the bytes *)
Variable png_size : Png -> Z * Z.

(** Pictures, by the Pillow operations that made them. *)
Inductive Picture :=
| Opened (png : Png)
| Masked (img : Picture) (mask_y_start mask_y_end : Z)
| Stamped (img : Picture) (ticket_number : Z) (text : string)
| Resized (img : Picture) (new_width new_height : Z).

Fixpoint pic_width (p : Picture) : Z :=
  match p with
  | Opened png => fst (png_size png)
  | Masked img _ _ => pic_width img
  | Stamped img _ _ => pic_width img
  | Resized _ w _ => w
  end.

Fixpoint pic_height (p : Picture) : Z :=
  match p with
  | Opened png => snd (png_size png)
  | Masked img _ _ => pic_height img
  | Stamped img _ _ => pic_height img
  | Resized _ _ h => h
  end.

(** One image put on an output page:
    [fitz.Rect(box_x, box_y, box_x + new_width, box_y + new_height)]. *)
Record Placement := mkPlacement {
  x0 : Z; y0 : Z; x1 : Z; y1 : Z; picture : Picture }.

(** A page of [output_doc]: its size and the fragments placed on the
    design background. *)
Record OutPage := mkOutPage {
  out_width : Z; out_height : Z; placed : list Placement }.

(** Whether the Pillow call producing a picture, the PyMuPDF insertion of
    a placement, and the final [output_doc.save] go through. *)
Variable pil_ok : Picture -> bool.
Variable insert_ok : Placement -> bool.
Variable save_ok : list OutPage -> bool.

Definition pil (p : Picture) : outcome Picture :=
  if pil_ok p then Ok p else Raise.

(** The two decoding loops of [extract_complete_qr_boxes]. *)
Definition scaled_regions (decoded : list Detector.Decoded)
  : outcome (list QRRegion) :=
  map_outcome
    (fun qr => text <- Detector.data_of utf8_decode qr ;;
               Ok (toPageSpace ZOOM (Detector.rect qr) text))
    decoded.

Definition extract_complete_qr_boxes (page : Page)
  : outcome (list (CompleteBox Png)) :=
  gray <- render_gray page ;;
  decoded <- pyzbar_decode gray ;;
  qr_regions <- scaled_regions decoded ;;
  qr_regions <-
    (if py_not qr_regions then
       binary <- threshold_127 gray ;;
       decoded <- pyzbar_decode binary ;;
       scaled_regions decoded
     else Ok qr_regions) ;;
  let complete_boxes :=
    map (expand_box (fst (page_rect page)) (snd (page_rect page)))
        qr_regions in
  map_outcome
    (fun box : CompleteBox Png =>
       png <- clip_png page (x box) (y box) (width box) (height box) ;;
       Ok (mkBox (x box) (y box) (width box) (height box) (qr_data box)
                 (Some png)))
    complete_boxes.

(** [mask_awaiting_payment(img, ticket_number)]: the white band, then
    the centred number when there is one. *)
Definition mask_awaiting_payment (img : Picture) (ticket_number : option Z)
  : outcome Picture :=
  let height := pic_height img in
  let mask_y_start := py_int (inject_Z height * (15 # 100)) in
  let mask_y_end := py_int (inject_Z height * (30 # 100)) in
  img_pil <- pil (Masked img mask_y_start mask_y_end) ;;
  match ticket_number with
  | Some n => pil (Stamped img_pil n (format_03d n))
  | None => Ok img_pil
  end.

(** [start_number is not None] *)
Definition is_not_None {A} (o : option A) : bool :=
  match o with
  | Some _ => true
  | None => false
  end.

(** Body of the loop "one ticket per QR code", after
    [total_tickets += 1]. *)
Definition make_ticket (design_width design_height : Z) (qr_scale : Q)
           (qr_margin : Z) (qr_position : string) (start_number : option Z)
           (mask_awaiting : bool) (total_tickets : Z)
           (box : CompleteBox Png) : outcome OutPage :=
  png <- match image box with
         | Some bytes => Ok bytes
         | None => Raise
         end ;;
  box_img <- pil (Opened png) ;;
  box_img <-
    (if mask_awaiting || is_not_None start_number then
       let ticket_num :=
         match start_number with
         | Some start => Some (start + total_tickets - 1)
         | None => None
         end in
       mask_awaiting_payment box_img ticket_num
     else Ok box_img) ;;
  let new_width := py_int (inject_Z (pic_width box_img) * qr_scale) in
  let new_height := py_int (inject_Z (pic_height box_img) * qr_scale) in
  box_img <- pil (Resized box_img new_width new_height) ;;
  images <-
    map_outcome
      (fun position =>
         let '(box_x, box_y) :=
           place_at design_width design_height new_width new_height
                    qr_margin position in
         let p := mkPlacement box_x box_y (box_x + new_width)
                              (box_y + new_height) box_img in
         if insert_ok p then Ok p else Raise)
      (positions_to_place qr_position) ;;
  Ok (mkOutPage design_width design_height images).

(** The loop over [all_qr_boxes]; [total_tickets] is the running counter
    and [pages] the output document so far. *)
Fixpoint make_tickets (design_width design_height : Z) (qr_scale : Q)
         (qr_margin : Z) (qr_position : string) (start_number : option Z)
         (mask_awaiting : bool) (boxes : list (CompleteBox Png))
         (total_tickets : Z) (pages : list OutPage)
  : outcome (list OutPage * Z) :=
  match boxes with
  | [] => Ok (pages, total_tickets)
  | box :: rest =>
      let total_tickets := total_tickets + 1 in
      page <- make_ticket design_width design_height qr_scale qr_margin
                          qr_position start_number mask_awaiting
                          total_tickets box ;;
      make_tickets design_width design_height qr_scale qr_margin
                   qr_position start_number mask_awaiting rest
                   total_tickets (pages ++ [page])
  end.

(** The scanning loop: [all_qr_boxes]. *)
Fixpoint collect_boxes (doc : list Page) : outcome (list (CompleteBox Png)) :=
  match doc with
  | [] => Ok []
  | page :: rest =>
      qr_boxes <- extract_complete_qr_boxes page ;;
      others <- collect_boxes rest ;;
      Ok (qr_boxes ++ others)
  end.

(** [process_pdf]: the saved document and the returned
    [(True, total_tickets)]. *)
Definition process_pdf (doc : list Page) (design_width design_height : Z)
           (qr_scale : Q) (qr_margin : Z) (qr_position : string)
           (start_number : option Z) (mask_awaiting : bool)
  : outcome (list OutPage * (bool * Z)) :=
  all_qr_boxes <- collect_boxes doc ;;
  result <- make_tickets design_width design_height qr_scale qr_margin
                         qr_position start_number mask_awaiting
                         all_qr_boxes 0 [] ;;
  if save_ok (fst result) then Ok (fst result, (true, snd result))
  else Raise.

(** Parsed arguments of [complete_qr_extractor.py] that reach
    [process_pdf]. *)
Record Args := mkArgs {
  qr_scale : Q; qr_margin : Z; qr_position : string;
  start_number : option Z; no_mask : bool }.

(** The call in [main]: [mask_awaiting=not args.no_mask]. *)
Definition main_call (args : Args) (doc : list Page)
           (design_width design_height : Z)
  : outcome (list OutPage * (bool * Z)) :=
  process_pdf doc design_width design_height (qr_scale args)
              (qr_margin args) (qr_position args) (start_number args)
              (negb (no_mask args)).

(** The number stamped on a picture, and whether the band was blanked. *)
Fixpoint stamped_number (p : Picture) : option Z :=
  match p with
  | Opened _ => None
  | Masked img _ _ => stamped_number img
  | Stamped _ n _ => Some n
  | Resized img _ _ => stamped_number img
  end.

Fixpoint stamped_text (p : Picture) : option string :=
  match p with
  | Opened _ => None
  | Masked img _ _ => stamped_text img
  | Stamped _ _ text => Some text
  | Resized img _ _ => stamped_text img
  end.

Fixpoint is_masked (p : Picture) : bool :=
  match p with
  | Opened _ => false
  | Masked _ _ _ => true
  | Stamped img _ _ => is_masked img
  | Resized img _ _ => is_masked img
  end.

(** The PNG a picture was read from. *)
Fixpoint source (p : Picture) : Png :=
  match p with
  | Opened png => png
  | Masked img _ _ => source img
  | Stamped img _ _ => source img
  | Resized img _ _ => source img
  end.

(** What an output page shows of its ticket: the number and the text on
    its first placed fragment, and the PNG that fragment was read from. *)
Definition ticket_number_of (page : OutPage) : option Z :=
  match placed page with
  | p :: _ => stamped_number (picture p)
  | [] => None
  end.

Definition ticket_text_of (page : OutPage) : option string :=
  match placed page with
  | p :: _ => stamped_text (picture p)
  | [] => None
  end.

Definition page_source (page : OutPage) : option Png :=
  match placed page with
  | p :: _ => Some (source (picture p))
  | [] => None
  end.

(** The values [total_tickets] takes over [n] iterations of the ticket
    loop entered with the counter at [total_tickets]. *)
Fixpoint counter_values (total_tickets : Z) (n : nat) : list Z :=
  match n with
  | O => []
  | S n' => (total_tickets + 1) :: counter_values (total_tickets + 1) n'
  end.

End Libraries.

Arguments Opened {Png}.
Arguments Masked {Png}.
Arguments Stamped {Png}.
Arguments Resized {Png}.
Arguments mkPlacement {Png}.
Arguments x0 {Png}.
Arguments y0 {Png}.
Arguments x1 {Png}.
Arguments y1 {Png}.
Arguments picture {Png}.
Arguments mkOutPage {Png}.
Arguments out_width {Png}.
Arguments out_height {Png}.
Arguments placed {Png}.
Arguments stamped_number {Png}.
Arguments stamped_text {Png}.
Arguments is_masked {Png}.
Arguments source {Png}.
Arguments ticket_number_of {Png}.
Arguments ticket_text_of {Png}.
Arguments page_source {Png}.

End Extractor.

(* ===================================================================== *)
(** ** A small document with stand-in libraries *)
(* ===================================================================== *)

Module Sample.
Import Geometry.

(** A page is given by the symbols a decoder finds on it; rendering,
    thresholding and text decoding hand their input on, the clip of a box
    is named by its rectangle and is twice as large in pixels; every
    Pillow and PyMuPDF call goes through. *)
Definition Page : Type := list Detector.Decoded.
Definition Png : Type := (Z * Z * Z * Z)%type.

Definition page_rect (_ : Page) : Q * Q := (600, 800)%Q.
Definition clip_png (_ : Page) (x y w h : Z) : outcome Png := Ok (x, y, w, h).
Definition png_size (png : Png) : Z * Z :=
  let '(_, _, w, h) := png in (2 * w, 2 * h).

(** Two symbols on the first page, one on the second. *)
Definition doc : list Page :=
  [ [Detector.mkDecoded (mkRect 200 400 100 100) "T-1";
     Detector.mkDecoded (mkRect 700 400 100 100) "T-2"];
    [Detector.mkDecoded (mkRect 200 400 100 100) "T-3"] ].

(** [process_pdf] on the sample: design 600 x 800, scale 1, margin 20. *)
Definition run (qr_position : string) (start_number : option Z)
           (mask_awaiting : bool) :=
  Extractor.process_pdf Page Page Png page_rect Ok Ok Ok Ok clip_png
    png_size (fun _ => true) (fun _ => true) (fun _ => true)
    doc 600 800 1 20 qr_position start_number mask_awaiting.

End Sample.

(* ===================================================================== *)
(** ** The command-line overlay tool ([standalone.py]) *)
(* ===================================================================== *)

Module Standalone.
Import Geometry.

Section Libraries.

(** What [process_pdf] hands to [detect_qr_codes] (the PNG bytes of the
    rendered page), grayscale rasters, and the library calls. *)
Variable Source : Type.
Variable Image : Type.
Variable Page : Type.
Variable Design : Type.

(** [cv2.imread], [cv2.imdecode] when that gave [None], then
    [cv2.cvtColor(img, cv2.COLOR_BGR2GRAY)] *)
Variable load_gray : Source -> outcome Image.
Variable pyzbar_decode : Image -> outcome (list Detector.Decoded).
Variable threshold_127 : Image -> outcome Image.
Variable utf8_decode : string -> outcome string.
(** [page.rect.width], [page.rect.height] *)
Variable page_rect : Page -> Q * Q.
(** [page.get_pixmap(matrix=fitz.Matrix(2, 2)).tobytes("png")] *)
Variable render_png : Page -> outcome Source.
(** [Image.open(design_path).convert('RGBA')] *)
Variable open_design : outcome Design.
(** alpha band of [design.resize((page_width, page_height), LANCZOS)] *)
Variable resized_alpha : Design -> Z -> Z -> outcome Compositor.Alpha.

(** The loop over [decoded]: raster coordinates as they are. *)
Definition codes_of (decoded : list Detector.Decoded)
  : outcome (list Compositor.RasterCode) :=
  Extractor.map_outcome
    (fun qr =>
       text <- Detector.data_of utf8_decode qr ;;
       let r := Detector.rect qr in
       Ok (Compositor.mkCode (left r) (top r) (rwidth r) (rheight r) text))
    decoded.

(** [SimpleTicketOverlay.detect_qr_codes]: no handler anywhere. *)
Definition detect_qr_codes (image_path : Source)
  : outcome (list Compositor.RasterCode) :=
  gray <- load_gray image_path ;;
  decoded <- pyzbar_decode gray ;;
  qr_codes <- codes_of decoded ;;
  if py_not qr_codes then
    binary <- threshold_127 gray ;;
    decoded <- pyzbar_decode binary ;;
    more <- codes_of decoded ;;
    Ok (qr_codes ++ more)
  else Ok qr_codes.

(** Body of the page loop of [SimpleTicketOverlay.process_pdf]: the alpha
    channel put on the page's overlay. *)
Definition overlay_page (design : Design) (opacity : Q) (padding : Z)
           (page : Page) : outcome Compositor.Alpha :=
  let page_width := py_int (fst (page_rect page)) in
  let page_height := py_int (snd (page_rect page)) in
  img_data <- render_png page ;;
  qr_codes <- detect_qr_codes img_data ;;
  design_alpha <- resized_alpha design page_width page_height ;;
  Compositor.process_pdf_alpha (fst (page_rect page)) (snd (page_rect page))
                               design_alpha qr_codes opacity padding.

(** [SimpleTicketOverlay.process_pdf] up to [doc.save]: the overlays, page
    by page; an exception on any page leaves nothing saved. *)
Definition process_pdf (doc : list Page) (opacity : Q) (padding : Z)
  : outcome (list Compositor.Alpha) :=
  design <- open_design ;;
  Extractor.map_outcome (overlay_page design opacity padding) doc.

End Libraries.

End Standalone.

(* ===================================================================== *)
(** ** Notions used in the statements *)
(* ===================================================================== *)

Module Notions.

(** The integer a text of an optional ["-"] and decimal digits denotes,
    as [int(text)] reads it. *)
Definition read_int (text : string) : option Z :=
  option_map Z.of_int (NilZero.int_of_string text).

(** A fragment of size [w x h] placed at [(x, y)] lies on a [W x H]
    page. *)
Definition placement_on_page (W H w h : Z) (xy : Z * Z) : Prop :=
  0 <= fst xy /\ fst xy + w <= W /\ 0 <= snd xy /\ snd xy + h <= H.

(** What the contour fallback lets through: no payload, both sides over
    50 raster pixels, aspect ratio strictly between 0.8 and 1.2. *)
Definition contour_shaped (r : Detector.Region) : Prop :=
  let b := Detector.bbox r in
  Detector.payload r = EmptyString /\
  50 < Geometry.rwidth b /\ 50 < Geometry.rheight b /\
  8 * Geometry.rheight b < 10 * Geometry.rwidth b /\
  10 * Geometry.rwidth b < 12 * Geometry.rheight b.

(** The padded rectangle of a page region has its corners in order, so
    that Pillow draws it. *)
Definition drawable (page_width page_height padding : Z)
           (r : Z * Z * Z * Z) : Prop :=
  let '(x, y, w, h) := r in
  Z.max 0 (x - padding) <= Z.min page_width (x + w + padding) /\
  Z.max 0 (y - padding) <= Z.min page_height (y + h + padding).

(** [len] consecutive integers from [n] on: the values of a loop index. *)
Fixpoint upfrom (n : Z) (len : nat) : list Z :=
  match len with
  | O => []
  | S len' => n :: upfrom (n + 1) len'
  end.

(** A raster pixel [(u, v)] lies in a symbol's rectangle, and its page
    pixel lies on a page of [page_width x page_height] pixels. *)
Definition symbol_pixel (r : Geometry.Rect) (page_width page_height : Z)
           (u v : Z) : Prop :=
  0 <= Geometry.left r <= u /\ u < Geometry.left r + Geometry.rwidth r /\
  0 <= Geometry.top r <= v /\ v < Geometry.top r + Geometry.rheight r /\
  u / 2 < page_width /\ v / 2 < page_height.

(** A statement keeps a property of every collected region. *)
Definition keeps (P : Detector.Region -> Prop) {A} (m : Detector.M A) : Prop :=
  forall st,
    Forall P (Detector.regions st) ->
    Forall P (Detector.regions (snd (m st))).

End Notions.

(* ===================================================================== *)
(** ** Ticket details from the page text ([_parse_ticket_text]) *)
(* ===================================================================== *)

Module TicketText.

(** A Python [str]: its code points. *)
Definition str : Type := list N.

(** An ASCII literal. *)
Definition lit (s : string) : str :=
  map N_of_ascii (list_ascii_of_string s).

Fixpoint starts_with (prefix s : str) : bool :=
  match prefix, s with
  | [], _ => true
  | _ :: _, [] => false
  | p :: prefix', c :: s' => (p =? c)%N && starts_with prefix' s'
  end.

(** [needle in hay] *)
Fixpoint contains (needle hay : str) : bool :=
  starts_with needle hay ||
  match hay with
  | [] => false
  | _ :: hay' => contains needle hay'
  end.

(** [str.isspace] of one code point. *)
Definition is_space (c : N) : bool :=
  ((9 <=? c) && (c <=? 13) || (28 <=? c) && (c <=? 32) || (c =? 133)
   || (c =? 160) || (c =? 5760) || (8192 <=? c) && (c <=? 8202)
   || (c =? 8232) || (c =? 8233) || (c =? 8239) || (c =? 8287)
   || (c =? 12288))%N.

Fixpoint lstrip (s : str) : str :=
  match s with
  | [] => []
  | c :: s' => if is_space c then lstrip s' else s
  end.

(** [line.strip()] *)
Definition strip (s : str) : str := rev (lstrip (rev (lstrip s))).

(** [text.split('\n')]: one more piece than there are newlines. *)
Fixpoint split_lines (text : str) : list str :=
  match text with
  | [] => [[]]
  | c :: text' =>
      if (c =? 10)%N then [] :: split_lines text'
      else match split_lines text' with
           | line :: lines => (c :: line) :: lines
           | [] => [[c]]
           end
  end.

(** A ticket dict: the keys it may hold. *)
Record Ticket := mkTicket {
  type : option str; email : option str; price : option str;
  ticket_id : option str; status : option str; date : option str }.

(** [{}] *)
Definition empty : Ticket := mkTicket None None None None None None.

Definition is_set {A} (o : option A) : bool :=
  match o with
  | Some _ => true
  | None => false
  end.

(** Truth value of a dict: it has a key. *)
Definition truthy (t : Ticket) : bool :=
  is_set (type t) || is_set (email t) || is_set (price t)
  || is_set (ticket_id t) || is_set (status t) || is_set (date t).

Definition months : list str :=
  map lit ["January"; "February"; "March"; "April"; "May"; "June"; "July";
           "August"; "September"; "October"; "November"; "December"]%string.

(** ['Adult' in line and 'Age' in line] *)
Definition opens_ticket (line : str) : bool :=
  contains (lit "Adult") line && contains (lit "Age") line.

(** [if current_ticket: tickets.append(current_ticket)] *)
Definition flush (tickets : list Ticket) (current_ticket : Ticket)
  : list Ticket :=
  if truthy current_ticket then tickets ++ [current_ticket] else tickets.

(** Body of the loop over the lines; the state is [tickets] and
    [current_ticket]. *)
Definition step (st : list Ticket * Ticket) (raw_line : str)
  : list Ticket * Ticket :=
  let '(tickets, cur) := st in
  let line := strip raw_line in
  if opens_ticket line then
    (flush tickets cur, mkTicket (Some line) None None None None None)
  else if contains (lit "@") line && contains (lit ".") line then
    (tickets, mkTicket (type cur) (Some line) (price cur) (ticket_id cur)
                       (status cur) (date cur))
  else if contains [8364%N] line || contains (lit "$") line then
    (tickets, mkTicket (type cur) (email cur) (Some line) (ticket_id cur)
                       (status cur) (date cur))
  else if starts_with (lit "A-") line && (List.length line <? 15)%nat then
    (tickets, mkTicket (type cur) (email cur) (price cur) (Some line)
                       (status cur) (date cur))
  else if contains (lit "Awaiting Payment") line
          || contains (lit "Confirmed") line then
    (tickets, mkTicket (type cur) (email cur) (price cur) (ticket_id cur)
                       (Some line) (date cur))
  else if existsb (fun month => contains month line) months then
    (tickets, mkTicket (type cur) (email cur) (price cur) (ticket_id cur)
                       (status cur) (Some line))
  else (tickets, cur).

(** [TicketProcessor._parse_ticket_text] *)
Definition _parse_ticket_text (text : str) : list Ticket :=
  let '(tickets, current_ticket) :=
    fold_left step (split_lines text) ([], empty) in
  flush tickets current_ticket.

(** The lines of a text that open a ticket. *)
Definition opening_lines (text : str) : list str :=
  filter opens_ticket (map strip (split_lines text)).

(** A ticket that has its ['type'] key. *)
Definition typed (t : Ticket) : bool := is_set (type t).

(** The ['type'] values held so far, finished tickets first. *)
Definition types_so_far (st : list Ticket * Ticket) : list (option str) :=
  map type (filter typed (fst st))
  ++ (if typed (snd st) then [type (snd st)] else []).

(** What the loop keeps true of [tickets] and [current_ticket], [seen]
    being the opening lines read so far. *)
Definition loop_invariant (seen : list str) (st : list Ticket * Ticket)
  : Prop :=
  Forall (fun t => truthy t = true) (fst st) /\
  types_so_far st = map Some seen /\
  Forall (fun t => typed t = true) (tl (fst st)) /\
  (fst st <> [] -> typed (snd st) = true).

End TicketText.

(* ===================================================================== *)
(** ** The web service's document passes ([extract_pdf_info],
       [apply_overlay]) *)
(* ===================================================================== *)

Module Service.
Import Geometry.

(** Entries of [results['pages']]. *)
Record PageInfo := mkPageInfo {
  page_num : Z; width : Q; height : Q;
  qr_codes : list Compositor.PdfCoords;
  tickets : list TicketText.Ticket }.

(** The dict [extract_pdf_info] returns. *)
Record Results := mkResults {
  pages : list PageInfo; total_tickets : Z; total_qr_codes : Z }.

Section Libraries.

Variable Page : Type.
Variable Image : Type.
Variable Contour : Type.
Variable Design : Type.

(** [page.get_pixmap(matrix=fitz.Matrix(2, 2))], [tobytes("png")],
    [np.frombuffer], [cv2.imdecode] *)
Variable render : Page -> outcome Image.
(** [page.rect.width], [page.rect.height] *)
Variable page_rect : Page -> Q * Q.
(** [page.get_text()] *)
Variable get_text : Page -> outcome TicketText.str.
Variable pyzbar_decode : Image -> outcome (list Detector.Decoded).
Variable utf8_decode : string -> outcome string.
Variable cvtColor_gray : Image -> outcome Image.
Variable threshold_127 : Image -> outcome Image.
Variable canny_contours : Image -> outcome (list Contour).
Variable approx_quad : Contour -> outcome (option Rect).
Variable _is_likely_qr : Image -> Rect -> bool.
(** [Image.open(design_path).convert('RGBA')] *)
Variable open_design : outcome Design.
(** alpha band of [design.resize((page_width, page_height), LANCZOS)] *)
Variable resized_alpha : Design -> Z -> Z -> outcome Compositor.Alpha.

(** [self._detect_qr_codes(img)] *)
Definition detect_qr_codes (img : Image) : outcome (list Detector.Region) :=
  fst (Detector.detect Image Contour pyzbar_decode utf8_decode cvtColor_gray
                       threshold_127 canny_contours approx_quad
                       _is_likely_qr img).

(** Body of the page loop of [extract_pdf_info]. *)
Definition page_info (page_num : Z) (page : Page) : outcome PageInfo :=
  img <- render page ;;
  qr_codes <- detect_qr_codes img ;;
  text <- get_text page ;;
  Ok (mkPageInfo page_num (fst (page_rect page)) (snd (page_rect page))
                 (map Compositor.pdf_coords qr_codes)
                 (TicketText._parse_ticket_text text)).

(** The loop [for page_num in range(len(doc))], from [page_num] on, with
    the results so far. *)
Fixpoint scan (doc : list Page) (page_num : Z) (results : Results)
  : outcome Results :=
  match doc with
  | [] => Ok results
  | page :: rest =>
      info <- page_info page_num page ;;
      scan rest (page_num + 1)
           (mkResults (pages results ++ [info])
                      (total_tickets results
                       + Z.of_nat (List.length (tickets info)))
                      (total_qr_codes results
                       + Z.of_nat (List.length (qr_codes info))))
  end.

(** [TicketProcessor.extract_pdf_info] *)
Definition extract_pdf_info (doc : list Page) : outcome Results :=
  scan doc 0 (mkResults [] 0 0).

(** [doc[page_num]]: an index below the page count, negative ones
    counting back from the end. *)
Definition doc_page (doc : list Page) (page_num : Z) : outcome Page :=
  let page_count := Z.of_nat (List.length doc) in
  if page_num <? page_count then
    match nth_error doc (Z.to_nat (page_num mod page_count)) with
    | Some page => Ok page
    | None => Raise
    end
  else Raise.

(** Body of the page loop of [apply_overlay]: the alpha channel of the
    overlay put on the page. *)
Definition overlay_page (doc : list Page) (design : Design) (opacity : Q)
           (padding : Z) (page_data : PageInfo) : outcome Compositor.Alpha :=
  page <- doc_page doc (page_num page_data) ;;
  let page_width := py_int (fst (page_rect page)) in
  let page_height := py_int (snd (page_rect page)) in
  design_alpha <- resized_alpha design page_width page_height ;;
  Compositor.apply_overlay_alpha (fst (page_rect page)) (snd (page_rect page))
                                 design_alpha (qr_codes page_data)
                                 opacity padding.

(** [TicketProcessor.apply_overlay] up to [doc.save]: the overlays, page
    by page. *)
Definition apply_overlay (doc : list Page) (opacity : Q) (padding : Z)
  : outcome (list Compositor.Alpha) :=
  pdf_info <- extract_pdf_info doc ;;
  design <- open_design ;;
  Extractor.map_outcome (overlay_page doc design opacity padding)
                        (pages pdf_info).

End Libraries.

End Service.

(* ===================================================================== *)
(** ** Command surface of the fragment extractor
       ([complete_qr_extractor.main]) *)
(* ===================================================================== *)

Module ExtractorCli.

(** Parsed arguments. *)
Record Args := mkArgs {
  pdf : string; design : string; output : string;
  qr_scale : Q; qr_margin : Z; qr_position : string;
  start_number : option Z; no_mask : bool }.

(** The lines [main] prints, by what they report. *)
Inductive Line :=
| PdfNotFound (path : string)
| DesignNotFound (path : string)
| ScaleNotPositive
| Saved (path : string)
| Generated (ticket_count : Z)
| PlacedAt (position : string)
| BoxScale (scale : Q)
| Includes
| TicketNumbers (first last : string)
| MaskedAwaiting
| OutputSize
| Failed.

(** The file system (paths that exist) and the console. *)
Record World := mkWorld { files : list string; console : list Line }.

Definition path_exists (w : World) (p : string) : bool :=
  existsb (String.eqb p) (files w).

Definition say (line : Line) (w : World) : World :=
  mkWorld (files w) (console w ++ [line]).

Definition say_all (lines : list Line) (w : World) : World :=
  mkWorld (files w) (console w ++ lines).

Definition create (p : string) (w : World) : World :=
  mkWorld (p :: files w) (console w).

(** Which corner the summary names: ['both'], ['left'], anything else. *)
Definition placed_line (position : string) : Line :=
  if (position =? "both")%string then PlacedAt "bottom-left and bottom-right"
  else if (position =? "left")%string then PlacedAt "bottom-left"
  else PlacedAt "bottom-right".

(** [if args.start_number:] a number that is given and not 0. *)
Definition numbers_line (start : option Z) (ticket_count : Z) : list Line :=
  match start with
  | Some s =>
      if s =? 0 then []
      else [TicketNumbers (Extractor.format_03d s)
                          (Extractor.format_03d (s + ticket_count - 1))]
  | None => []
  end.

Section Processor.

(** [os.path.dirname] *)
Variable dirname : string -> string.
(** [CompleteQRExtractor.process_pdf] as seen from [main]: it saves to
    the output path and returns [(True, total_tickets)], or raises. *)
Variable process_pdf :
  string -> string -> string -> Q -> Z -> string -> option Z -> bool ->
  World -> outcome (bool * Z) * World.

Definition makedirs_for (out : string) (w : World) : World :=
  let output_dir := dirname out in
  match output_dir with
  | EmptyString => w
  | _ => if path_exists w output_dir then w else create output_dir w
  end.

(** The summary printed after a successful run; [os.path.getsize] of a
    missing output raises. *)
Definition report (args : Args) (ticket_count : Z) (w : World)
  : Cli.Status * World :=
  let w := say_all ([Saved (output args); Generated ticket_count;
                     placed_line (qr_position args);
                     BoxScale (qr_scale args); Includes]
                    ++ numbers_line (start_number args) ticket_count
                    ++ (if no_mask args then [] else [MaskedAwaiting])) w in
  if path_exists w (output args) then (Cli.Finished, say OutputSize w)
  else (Cli.Exit 1, say Failed w).

(** [complete_qr_extractor.main] after argument parsing. *)
Definition main (args : Args) (w : World) : Cli.Status * World :=
  if negb (path_exists w (pdf args)) then
    (Cli.Exit 1, say (PdfNotFound (pdf args)) w)
  else if negb (path_exists w (design args)) then
    (Cli.Exit 1, say (DesignNotFound (design args)) w)
  else if Qle_bool (qr_scale args) 0 then
    (Cli.Exit 1, say ScaleNotPositive w)
  else
    let w := makedirs_for (output args) w in
    match process_pdf (pdf args) (design args) (output args)
                      (qr_scale args) (qr_margin args) (qr_position args)
                      (start_number args) (negb (no_mask args)) w with
    | (Ok (true, ticket_count), w') => report args ticket_count w'
    | (Ok (false, _), w') => (Cli.Finished, w')
    | (Raise, w') => (Cli.Exit 1, say Failed w')
    end.

End Processor.

End ExtractorCli.

(* ===================================================================== *)
(** * Properties *)
(* ===================================================================== *)

(** ** Truncation and minimum *)

Lemma py_int_floor (q : Q) : (0 <= q)%Q -> py_int q = Qfloor q.
Proof.
  destruct q as [n d]. unfold Qle, py_int, Qfloor. simpl.
  intros H. apply Z.quot_div_nonneg; lia.
Qed.

Lemma py_int_inject (n : Z) : py_int (inject_Z n) = n.
Proof. unfold py_int, inject_Z. simpl. apply Z.quot_1_r. Qed.

Lemma py_int_nonneg (q : Q) : (0 <= q)%Q -> 0 <= py_int q.
Proof.
  intros H. rewrite py_int_floor by exact H.
  change 0 with (Qfloor (inject_Z 0)) at 1. rewrite Qfloor_Z.
  rewrite <- (Qfloor_Z 0). apply Qfloor_resp_le. exact H.
Qed.

Lemma py_int_below (q : Q) : (0 <= q)%Q -> (inject_Z (py_int q) <= q)%Q.
Proof. intros H. rewrite py_int_floor by exact H. apply Qfloor_le. Qed.

Lemma py_int_above (n : Z) (q : Q) :
  (0 <= q)%Q -> (inject_Z n <= q)%Q -> n <= py_int q.
Proof.
  intros H0 H. rewrite py_int_floor by exact H0.
  rewrite <- (Qfloor_Z n). apply Qfloor_resp_le. exact H.
Qed.

Lemma py_int_truediv (v zoom : Z) : 0 < zoom -> py_int (truediv v zoom) = Z.quot v zoom.
Proof.
  intros Hz. unfold truediv, py_int, Qdiv, Qinv, Qmult, inject_Z.
  destruct zoom as [|p|p]; try lia. simpl.
  rewrite Z.mul_1_r. reflexivity.
Qed.

Lemma py_min_le_r (a b : Q) : (py_min a b <= b)%Q.
Proof.
  unfold py_min. destruct (Qle_bool a b) eqn:E.
  - apply Qle_bool_iff. exact E.
  - apply Qle_refl.
Qed.

Lemma py_min_nonneg (a b : Q) : (0 <= a)%Q -> (0 <= b)%Q -> (0 <= py_min a b)%Q.
Proof. unfold py_min. destruct (Qle_bool a b); auto. Qed.

Lemma inject_Z_nonneg (n : Z) : 0 <= n -> (0 <= inject_Z n)%Q.
Proof. intros H. unfold Qle, inject_Z. simpl. lia. Qed.

(** ** Raster space and page space *)

Lemma floor_recovers (zoom v : Z) : 0 < zoom -> 0 <= v - zoom * (v / zoom) < zoom.
Proof.
  intros Hz. pose proof (Z.mod_pos_bound v zoom Hz) as Hm.
  rewrite Z.mod_eq in Hm by lia. lia.
Qed.

Lemma trunc_recovers (zoom v : Z) :
  0 < zoom -> Z.abs (v - zoom * Z.quot v zoom) < zoom.
Proof.
  intros Hz. pose proof (Z.quot_rem' v zoom) as E.
  destruct (Z_le_gt_dec 0 v) as [Hv|Hv].
  - pose proof (Z.rem_bound_pos v zoom Hv Hz). lia.
  - assert (Hneg : v <= 0) by lia.
    pose proof (Z.rem_bound_pos_neg v zoom Hz Hneg). lia.
Qed.



(** ** Boxes and page bounds *)

(** C3, as stated, fails: nothing clamps the width at 0.  A region at
    [qr_x = 700] on a 600 x 800 page gets the box [x = 680],
    [width = -80], and protection bounds starting at [x1 = 685], beyond
    the page. *)
Lemma expand_box_negative_width :
  let qr := Geometry.mkQR 700 100 50 50 "T-1" in
  Geometry.width (Geometry.expand_box (Img:=unit) 600 800 qr) = -80 /\
  ~ Geometry.box_on_page 600 800 (Geometry.expand_box (Img:=unit) 600 800 qr) /\
  ~ Geometry.bounds_on_page 600 800
      (Geometry.protection_bounds 600 800 15 700 100 50 50).
Proof.
  cbn zeta. split; [reflexivity|]. split.
  - unfold Geometry.box_on_page. vm_compute. intros (_ & _ & H & _).
    apply H. reflexivity.
  - vm_compute. intros ((_ & H) & _). apply H. reflexivity.
Qed.

(** C3, amended.  For a region that lies on the page ([0 <= qr_x <=
    page width], [0 <= qr_y <= page height], no negative width or height)
    and a padding that is not negative, the complete box and the
    protection bounds lie within the page and have no negative extent. *)
Theorem boxes_on_page_for_regions_on_page
  (Img : Type) (page_w page_h : Q) (qr : Geometry.QRRegion) (padding : Z)
  (Hx0 : 0 <= Geometry.qr_x qr)
  (Hx1 : (inject_Z (Geometry.qr_x qr) <= page_w)%Q)
  (Hy0 : 0 <= Geometry.qr_y qr)
  (Hy1 : (inject_Z (Geometry.qr_y qr) <= page_h)%Q)
  (Hw : 0 <= Geometry.qr_width qr)
  (Hh : 0 <= Geometry.qr_height qr)
  (Hp : 0 <= padding) :
  Geometry.box_on_page page_w page_h
    (Geometry.expand_box (Img:=Img) page_w page_h qr) /\
  Geometry.bounds_on_page (py_int page_w) (py_int page_h)
    (Geometry.protection_bounds (py_int page_w) (py_int page_h) padding
       (Geometry.qr_x qr) (Geometry.qr_y qr)
       (Geometry.qr_width qr) (Geometry.qr_height qr)).
Proof.
  assert (Hside :
    forall (v ext pad : Z) (page : Q),
      0 <= v -> (inject_Z v <= page)%Q -> 0 <= ext -> 0 <= pad ->
      let b := Z.max 0 (Z.max 0 (v - pad)) in
      let e := py_int (py_min (inject_Z ext) (page - inject_Z b)) in
      0 <= b /\ 0 <= e /\ (inject_Z (b + e) <= page)%Q).
  { intros v ext pad page Hv Hvp Hext Hpad b e.
    assert (Hb : 0 <= b <= v) by (subst b; lia).
    assert (Hroom : (0 <= page - inject_Z b)%Q).
    { setoid_replace (page - inject_Z b)%Q
        with (page + - inject_Z b)%Q by reflexivity.
      rewrite <- Qle_minus_iff.
      apply Qle_trans with (inject_Z v); [|exact Hvp].
      rewrite <- Zle_Qle. lia. }
    assert (Hm : (0 <= py_min (inject_Z ext) (page - inject_Z b))%Q).
    { apply py_min_nonneg; [apply inject_Z_nonneg; exact Hext | exact Hroom]. }
    split; [lia|]. split; [subst e; apply py_int_nonneg; exact Hm|].
    rewrite inject_Z_plus.
    apply Qle_trans with (inject_Z b + (page - inject_Z b))%Q.
    - apply Qplus_le_r. subst e.
      apply Qle_trans with (py_min (inject_Z ext) (page - inject_Z b)).
      + apply py_int_below. exact Hm.
      + apply py_min_le_r.
    - apply Qle_lteq. right. ring. }
  split.
  - unfold Geometry.box_on_page, Geometry.expand_box. simpl.
    destruct (Hside (Geometry.qr_x qr)
                (Geometry.qr_width qr + 2 * Geometry.side_padding)
                Geometry.side_padding page_w Hx0 Hx1)
      as (A1 & A2 & A3);
      [unfold Geometry.side_padding; lia | unfold Geometry.side_padding; lia|].
    destruct (Hside (Geometry.qr_y qr)
                (Geometry.qr_height qr + Geometry.text_height
                 + Geometry.bottom_padding)
                Geometry.text_height page_h Hy0 Hy1)
      as (B1 & B2 & B3);
      [unfold Geometry.text_height, Geometry.bottom_padding; lia
      | unfold Geometry.text_height; lia|].
    cbn zeta in *. repeat split; assumption.
  - assert (Hpw : (0 <= page_w)%Q).
    { apply Qle_trans with (inject_Z (Geometry.qr_x qr));
        [apply inject_Z_nonneg; exact Hx0 | exact Hx1]. }
    assert (Hph : (0 <= page_h)%Q).
    { apply Qle_trans with (inject_Z (Geometry.qr_y qr));
        [apply inject_Z_nonneg; exact Hy0 | exact Hy1]. }
    pose proof (py_int_above _ _ Hpw Hx1) as Hxi.
    pose proof (py_int_above _ _ Hph Hy1) as Hyi.
    unfold Geometry.bounds_on_page, Geometry.protection_bounds. lia.
Qed.

Lemma boxes_on_page_witness :
  let qr := Geometry.mkQR 50 50 25 25 "T-1" in
  Geometry.box_on_page 600 800 (Geometry.expand_box (Img:=unit) 600 800 qr) /\
  Geometry.bounds_on_page (py_int 600) (py_int 800)
    (Geometry.protection_bounds (py_int 600) (py_int 800) 15 50 50 25 25).
Proof.
  cbn zeta.
  apply (boxes_on_page_for_regions_on_page unit 600 800
           (Geometry.mkQR 50 50 25 25 "T-1") 15);
    simpl; unfold Qle; simpl; lia.
Defined.

(** ** Fragment placement *)

(** C8.  With margin [m], page [W x H] and fragment [w x h], mode
    ['left'] places at [(m, H - h - m)], mode ['right'] at
    [(W - w - m, H - h - m)], mode ['both'] at both, a negative coordinate
    being replaced by [m]; margin 20, page 600 x 800, fragment 100 x 50,
    mode ['both'] gives [(20, 730)] and [(480, 730)]. *)
Theorem planPlacements_positions :
  (forall m W H w h,
      Extractor.planPlacements W H w h m "left"
      = [(Extractor.reclamp m m, Extractor.reclamp m (H - h - m))] /\
      Extractor.planPlacements W H w h m "right"
      = [(Extractor.reclamp m (W - w - m), Extractor.reclamp m (H - h - m))] /\
      Extractor.planPlacements W H w h m "both"
      = [(Extractor.reclamp m m, Extractor.reclamp m (H - h - m));
         (Extractor.reclamp m (W - w - m), Extractor.reclamp m (H - h - m))] /\
      Extractor.reclamp m m = m) /\
  Extractor.planPlacements 600 800 100 50 20 "both" = [(20, 730); (480, 730)].
Proof.
  split; [|reflexivity].
  intros m W H w h. repeat split; try reflexivity.
  unfold Extractor.reclamp. destruct (m <? 0); reflexivity.
Qed.

(** ** The detection cascade *)

Import Detector.

Lemma frame_eta (st : Frame) : mkFrame (regions st) (stdout st) (ran st) = st.
Proof. destruct st. reflexivity. Qed.

Lemma appends_only_lift {A} (o : outcome A) : appends_only (lift o).
Proof.
  exists o, []. intros st. unfold lift. rewrite app_nil_r, frame_eta.
  reflexivity.
Qed.

Lemma appends_only_ret {A} (a : A) : appends_only (ret a).
Proof. exact (appends_only_lift (Ok a)). Qed.

Lemma appends_only_append (r : Region) : appends_only (append r).
Proof. exists (Ok tt), [r]. intros st. reflexivity. Qed.

Lemma appends_only_seq {A B} (m : M A) (k : A -> M B) :
  appends_only m -> (forall a, appends_only (k a)) -> appends_only (seq m k).
Proof.
  intros (o & added & Hm) Hk. destruct o as [a|].
  - destruct (Hk a) as (o2 & added2 & Hk2).
    exists o2, (added ++ added2). intros st.
    unfold seq. rewrite Hm, Hk2. simpl. rewrite app_assoc. reflexivity.
  - exists Raise, added. intros st. unfold seq. rewrite Hm. reflexivity.
Qed.

Lemma appends_only_for_each {A} (body : A -> M unit) (l : list A) :
  (forall a, appends_only (body a)) -> appends_only (for_each body l).
Proof.
  intros Hbody. induction l as [|a l IH]; simpl.
  - apply appends_only_ret.
  - apply appends_only_seq; [apply Hbody | intros _; exact IH].
Qed.

Create HintDb appends.

#[local] Hint Resolve appends_only_lift appends_only_ret appends_only_append
  : appends.

(** One step through a statement built from library calls and appends. *)
Ltac appends_step :=
  first [ apply appends_only_seq; [solve [auto with appends] | intro]
        | apply appends_only_for_each; intro
        | solve [auto with appends] ].

Section DetectorFacts.

Variables Image Contour : Type.
Variable pyzbar_decode : Image -> outcome (list Decoded).
Variable utf8_decode : string -> outcome string.
Variable cvtColor_gray threshold_127 : Image -> outcome Image.
Variable canny_contours : Image -> outcome (list Contour).
Variable approx_quad : Contour -> outcome (option Geometry.Rect).
Variable _is_likely_qr : Image -> Geometry.Rect -> bool.

Lemma direct_body_appends (image : Image) :
  appends_only (direct_body Image pyzbar_decode utf8_decode image).
Proof. unfold direct_body, append_decoded. repeat appends_step. Qed.

Lemma enhanced_body_appends (image : Image) :
  appends_only (enhanced_body Image pyzbar_decode utf8_decode cvtColor_gray
                              threshold_127 image).
Proof. unfold enhanced_body, append_decoded. repeat appends_step. Qed.

Lemma contours_body_appends (image : Image) :
  appends_only (contours_body Image Contour cvtColor_gray canny_contours
                              approx_quad _is_likely_qr image).
Proof.
  unfold contours_body.
  apply appends_only_seq; [auto with appends | intros gray].
  apply appends_only_seq; [auto with appends | intros contours].
  apply appends_only_for_each. intros contour. unfold contour_step.
  apply appends_only_seq; [auto with appends | intros approx].
  destruct approx as [r|]; [|auto with appends].
  apply appends_only_seq; [auto with appends | intros aspect].
  destruct (squarish aspect _ _); [|auto with appends].
  destruct (_is_likely_qr gray r); auto with appends.
Qed.


Lemma yield_of_appends (body : M unit) (o : outcome unit)
      (added : list Region) :
  (forall st, body st
              = (o, mkFrame (regions st ++ added) (stdout st) (ran st))) ->
  yield_of (try_except body (ret tt)) = added.
Proof.
  intros H. unfold yield_of, try_except. rewrite H.
  destruct o as [[]|]; reflexivity.
Qed.

(** A guarded method never raises: it appends what it yields and at most
    prints a line. *)
Lemma try_except_appends (body : M unit) (line : string) :
  appends_only body ->
  forall st, exists out,
    try_except body (print line) st
    = (Ok tt, mkFrame (regions st ++ yield_of (try_except body (ret tt)))
                      out (ran st)).
Proof.
  intros (o & added & H) st.
  rewrite (yield_of_appends body o added H).
  unfold try_except. rewrite H. destruct o as [[]|].
  - exists (stdout st). reflexivity.
  - exists (stdout st ++ [line]). reflexivity.
Qed.

Local Abbreviation detect :=
  (Detector.detect Image Contour pyzbar_decode utf8_decode cvtColor_gray
                   threshold_127 canny_contours approx_quad _is_likely_qr).
Local Abbreviation direct_yield :=
  (Detector.direct_yield Image pyzbar_decode utf8_decode).
Local Abbreviation enhanced_yield :=
  (Detector.enhanced_yield Image pyzbar_decode utf8_decode cvtColor_gray
                           threshold_127).
Local Abbreviation contour_yield :=
  (Detector.contour_yield Image Contour cvtColor_gray canny_contours
                          approx_quad _is_likely_qr).

(** What a call of [_detect_qr_codes] returns and which methods it ran. *)
Lemma detect_spec (image : Image) :
  exists out,
    detect image
    = (Ok (first_yielding [direct_yield image; enhanced_yield image;
                           contour_yield image]),
       mkFrame (first_yielding [direct_yield image; enhanced_yield image;
                                contour_yield image])
               out
               (DirectDecode ::
                  if py_not (direct_yield image) then
                    EnhancedDecode ::
                      if py_not (enhanced_yield image)
                      then [ContourFallback] else []
                  else [])).
Proof.
  unfold Detector.detect, _detect_qr_codes.
  unfold seq at 1. unfold mark at 1. cbn [regions stdout ran app].
  unfold seq at 1.
  destruct (try_except_appends _ "Error in direct QR detection"
              (direct_body_appends image)
              (mkFrame [] [] [DirectDecode])) as (out1 & E1).
  rewrite E1. clear E1. cbn [regions app].
  fold (direct_yield image).
  destruct (direct_yield image) as [|r1 d] eqn:Ed.
  - unfold seq at 1. unfold seq at 1. unfold get_regions at 1.
    cbn [regions py_not]. unfold seq at 1. unfold mark at 1.
    cbn [regions stdout ran app].
    destruct (try_except_appends _ "Error in enhanced QR detection"
                (enhanced_body_appends image)
                (mkFrame [] out1 [DirectDecode; EnhancedDecode]))
      as (out2 & E2).
    rewrite E2. clear E2. cbn [regions app].
    fold (enhanced_yield image).
    destruct (enhanced_yield image) as [|r2 e] eqn:Ee.
    + unfold seq at 1. unfold seq at 1. unfold get_regions at 1.
      cbn [regions py_not]. unfold seq at 1. unfold mark at 1.
      cbn [regions stdout ran app].
      unfold seq at 1. unfold _detect_qr_by_contours, call.
      cbn [regions stdout ran].
      destruct (try_except_appends _ "Error in contour detection"
                  (contours_body_appends image)
                  (mkFrame [] out2
                     [DirectDecode; EnhancedDecode; ContourFallback]))
        as (out3 & E3).
      rewrite E3. clear E3. cbn [regions stdout ran app].
      fold (contour_yield image).
      exists out3. unfold extend, get_regions. cbn.
      destruct (contour_yield image); reflexivity.
    + exists out2. reflexivity.
  - exists out1. reflexivity.
Qed.


(** C5.  The cascade short-circuits: the thresholded decode runs exactly
    when the direct decode yielded no region, the contour fallback exactly
    when both decodes yielded none, and the returned regions are those of
    the first method, in the fixed order, that yielded at least one. *)
Theorem cascade_short_circuits (image : Image) :
  fst (detect image)
  = Ok (first_yielding [direct_yield image; enhanced_yield image;
                        contour_yield image]) /\
  In DirectDecode (ran (snd (detect image))) /\
  (In EnhancedDecode (ran (snd (detect image)))
   <-> direct_yield image = []) /\
  (In ContourFallback (ran (snd (detect image)))
   <-> direct_yield image = [] /\ enhanced_yield image = []).
Proof.
  destruct (detect_spec image) as (out & E). rewrite E. cbn [fst snd ran].
  split; [reflexivity|]. split; [left; reflexivity|].
  destruct (direct_yield image) as [|r1 d]; cbn [py_not].
  - destruct (enhanced_yield image) as [|r2 e]; cbn [py_not]; split; split;
      simpl; intros H; try tauto; try discriminate;
      try (destruct H as [_ H]; discriminate);
      repeat (destruct H as [H|H]; try discriminate); try contradiction.
  - split; split; simpl; intros H; try discriminate;
      try (destruct H as [H _]; discriminate);
      repeat (destruct H as [H|H]; try discriminate); contradiction.
Qed.

(** C4, amended.  [_detect_qr_codes] never raises: it always returns a
    list.  When the decoder call of the direct method raises, that method
    contributes no region and the thresholded method runs; when the direct
    method yielded nothing and a library call of the thresholded method
    raises, that method contributes no region and the contour fallback
    runs. *)
Theorem detect_qr_codes_never_raises (image : Image) :
  (exists found, fst (detect image) = Ok found) /\
  (pyzbar_decode image = Raise ->
   direct_yield image = [] /\
   In EnhancedDecode (ran (snd (detect image)))) /\
  (direct_yield image = [] ->
   (cvtColor_gray image = Raise \/
    exists gray, cvtColor_gray image = Ok gray /\
      (threshold_127 gray = Raise \/
       exists thresh, threshold_127 gray = Ok thresh /\
                      pyzbar_decode thresh = Raise)) ->
   enhanced_yield image = [] /\
   In ContourFallback (ran (snd (detect image)))).
Proof.
  destruct (detect_spec image) as (out & E).
  split; [rewrite E; eexists; reflexivity|]. split.
  - intros Hraise.
    assert (Hd : direct_yield image = []).
    { unfold Detector.direct_yield, yield_of, try_except, direct_body,
        seq, lift. rewrite Hraise. reflexivity. }
    split; [exact Hd|]. rewrite E, Hd. simpl. auto.
  - intros Hd Hfail.
    assert (He : enhanced_yield image = []).
    { unfold Detector.enhanced_yield, yield_of, try_except, enhanced_body,
        seq, lift.
      destruct Hfail as [H | (gray & Hg & [H | (thresh & Ht & H)])].
      - rewrite H. reflexivity.
      - rewrite Hg, H. reflexivity.
      - rewrite Hg, Ht, H. reflexivity. }
    split; [exact He|]. rewrite E, Hd, He. simpl. auto.
Qed.

End DetectorFacts.

(** A decoder that always raises makes the direct method contribute
    nothing and the cascade go on. *)
Lemma detect_qr_codes_never_raises_witness :
  let decode := fun _ : unit => @Raise (list Decoded) in
  decode tt = Raise /\
  Detector.direct_yield unit decode Ok tt = [] /\
  In EnhancedDecode
     (ran (snd (Detector.detect unit unit decode Ok Ok Ok (fun _ => Ok [])
                                (fun _ => Ok None) (fun _ _ => false) tt))).
Proof.
  cbn zeta. split; [reflexivity|].
  exact (proj1 (proj2 (detect_qr_codes_never_raises unit unit
                         (fun _ => Raise) Ok Ok Ok (fun _ => Ok [])
                         (fun _ => Ok None) (fun _ _ => false) tt))
               eq_refl).
Defined.

(** C4, as stated, fails for the detection inside
    [extract_complete_qr_boxes], which has no handler: when the decoder
    raises, so does the extraction, and no list is returned. *)
Lemma extract_complete_qr_boxes_raises :
  let extract :=
    Extractor.extract_complete_qr_boxes unit unit unit
      (fun _ => (600, 800)%Q) (fun _ => Ok tt) (fun _ => Raise) Ok Ok
      (fun _ _ _ _ _ => Ok tt) in
  extract tt = Raise /\ ~ exists boxes, extract tt = Ok boxes.
Proof.
  cbn zeta. split; [reflexivity|]. intros (boxes & H). discriminate H.
Qed.

(** A failure part-way through the loop of the direct method keeps the
    regions appended before it, and no later method runs. *)
Remark direct_failure_keeps_collected :
  let good := mkDecoded (Geometry.mkRect 100 100 50 50) "T-1" in
  let bad := mkDecoded (Geometry.mkRect 300 100 50 50) "?" in
  let utf8 := fun s => if (s =? "?")%string then Raise else Ok s in
  Detector.detect unit unit (fun _ => Ok [good; bad]) utf8 Ok Ok
                  (fun _ => Ok []) (fun _ => Ok None) (fun _ _ => false) tt
  = (Ok [mkRegion (Geometry.mkRect 100 100 50 50) "T-1"],
     mkFrame [mkRegion (Geometry.mkRect 100 100 50 50) "T-1"]
             ["Error in direct QR detection"%string] [DirectDecode]).
Proof. reflexivity. Qed.

(** ** The overlay alpha mask *)

Import Compositor.

Lemma clip8_id (v : Z) : 0 <= v <= 255 -> clip8 v = v.
Proof. unfold clip8. lia. Qed.

Lemma scaled_sample_range (p : Z) (opacity : Q) :
  (0 <= opacity)%Q -> (opacity <= 1)%Q -> 0 <= p <= 255 ->
  0 <= py_int (inject_Z p * opacity) <= 255.
Proof.
  intros H0 H1 Hp.
  assert (Hq : (0 <= inject_Z p * opacity)%Q).
  { apply Qmult_le_0_compat; [apply inject_Z_nonneg; lia | exact H0]. }
  split; [apply py_int_nonneg; exact Hq|].
  rewrite py_int_floor by exact Hq.
  apply Z.le_trans with p; [|lia].
  rewrite <- (Qfloor_Z p) at 2. apply Qfloor_resp_le.
  destruct opacity as [n d]. unfold Qle, Qmult, inject_Z in *. simpl in *.
  nia.
Qed.

Lemma protectedb_cons (page_width page_height padding x y w h : Z)
      (rest : list (Z * Z * Z * Z)) (px py : Z) :
  protectedb page_width page_height padding ((x, y, w, h) :: rest) px py
  = in_rectangle (Z.max 0 (x - padding)) (Z.max 0 (y - padding))
                 (Z.min page_width (x + w + padding))
                 (Z.min page_height (y + h + padding)) px py
    || protectedb page_width page_height padding rest px py.
Proof. reflexivity. Qed.

Lemma punch_spec (page_width page_height padding : Z)
      (boxes : list (Z * Z * Z * Z)) :
  forall alpha out,
    punch page_width page_height padding boxes alpha = Ok out ->
    forall px py,
      value_at out px py
      = if protectedb page_width page_height padding boxes px py
        then 0 else value_at alpha px py.
Proof.
  induction boxes as [|[[[x y] w] h] rest IH]; intros alpha out Hrun px py.
  - simpl in Hrun. injection Hrun as <-. reflexivity.
  - rewrite protectedb_cons.
    cbn [punch] in Hrun. unfold Geometry.protection_bounds in Hrun.
    set (x1 := Z.max 0 (x - padding)) in *.
    set (y1 := Z.max 0 (y - padding)) in *.
    set (x2 := Z.min page_width (x + w + padding)) in *.
    set (y2 := Z.min page_height (y + h + padding)) in *.
    unfold rectangle in Hrun.
    destruct ((x2 <? x1) || (y2 <? y1)); [discriminate Hrun|].
    cbn [bind] in Hrun. rewrite (IH _ _ Hrun px py). cbn [value_at].
    destruct (in_rectangle x1 y1 x2 y2 px py);
      destruct (protectedb page_width page_height padding rest px py);
      reflexivity.
Qed.

Lemma punch_returns (page_width page_height padding : Z)
      (boxes : list (Z * Z * Z * Z)) :
  0 <= padding ->
  Forall (region_on_page page_width page_height) boxes ->
  forall alpha, exists out,
    punch page_width page_height padding boxes alpha = Ok out.
Proof.
  intros Hp Hall. induction Hall as [|[[[x y] w] h] rest Hb _ IH];
    intros alpha.
  - exists alpha. reflexivity.
  - simpl. unfold Geometry.protection_bounds, rectangle.
    unfold region_on_page in Hb.
    replace ((Z.min page_width (x + w + padding) <? Z.max 0 (x - padding))
             || (Z.min page_height (y + h + padding)
                 <? Z.max 0 (y - padding))) with false.
    + simpl. apply IH.
    + symmetry. apply orb_false_intro; apply Z.ltb_ge; lia.
Qed.




(** ** Input validation at the command surface *)

(** [standalone.main] rejects an out-of-range opacity before the overlay
    is computed: exit status 1, one more console line, the files as they
    were, whatever [process_pdf] would have done. *)
Lemma standalone_main_rejects_opacity
      (dirname : string -> string)
      (process_pdf :
         string -> string -> string -> Q -> Z -> Cli.World
         -> outcome bool * Cli.World)
      (args : Cli.Args) (w : Cli.World) :
  Cli.opacity_out_of_range (Cli.opacity args) = true ->
  exists line,
    Cli.main dirname process_pdf args w = (Cli.Exit 1, Cli.say line w) /\
    Cli.files (snd (Cli.main dirname process_pdf args w)) = Cli.files w.
Proof.
  intros Hbad. unfold Cli.main.
  destruct (negb (Cli.path_exists w (Cli.pdf args)));
    [eexists; split; reflexivity|].
  destruct (negb (Cli.path_exists w (Cli.design args)));
    [eexists; split; reflexivity|].
  rewrite Hbad. eexists; split; reflexivity.
Qed.

(** C6 at the failing input.  Opacity 1.5 is out of range, and
    [standalone.main] rejects it; the [/process] route hands the same
    value to [apply_overlay] unchecked, answers with whatever the overlay
    did, and the overlay itself goes through with a fully opaque mask. *)
Theorem process_overlay_accepts_opacity_out_of_range :
  let data := Cli.mkRequest "t.pdf" "d.png" (Cli.Given (15 # 10)) Cli.Missing in
  Cli.opacity_out_of_range (15 # 10) = true /\
  (forall apply_overlay w,
      Cli.process_overlay apply_overlay data w
      = match apply_overlay "uploads/t.pdf"%string "uploads/d.png"%string
                            "processed/modified_t.pdf"%string (15 # 10) 15 w
        with
        | (Ok _, w') => (Cli.SendFile "processed/modified_t.pdf", w')
        | (Raise, w') => (Cli.JsonError 500, w')
        end) /\
  (let saving := fun (_ _ out : string) (_ : Q) (_ : Z) w =>
                   (Ok out, Cli.create out w) in
   let w := Cli.mkWorld ["uploads/t.pdf"%string; "uploads/d.png"%string] [] in
   Cli.process_overlay saving data w
   = (Cli.SendFile "processed/modified_t.pdf",
      Cli.mkWorld ["processed/modified_t.pdf"%string; "uploads/t.pdf"%string;
                   "uploads/d.png"%string] [])) /\
  (exists alpha,
      apply_overlay_alpha 600 800 (mkAlpha 600 800 (fun _ _ => 255))
        [mkCoords 50 50 25 25 "T-1"] (15 # 10) 15 = Ok alpha /\
      value_at alpha 0 0 = 255 /\ value_at alpha 50 50 = 0).
Proof.
  cbn zeta. split; [reflexivity|]. split; [|split].
  - intros apply_overlay w. reflexivity.
  - reflexivity.
  - eexists. split; [reflexivity|]. split; reflexivity.
Qed.

(** ** Ticket-fragment mode *)

Import Extractor.

Lemma map_outcome_spec {A B} (f : A -> outcome B) (l : list A) :
  forall r, map_outcome f l = Ok r -> Forall2 (fun a b => f a = Ok b) l r.
Proof.
  induction l as [|a l IH]; simpl; intros r H.
  - injection H as <-. constructor.
  - destruct (f a) as [b|] eqn:Ea; [|discriminate H]. simpl in H.
    destruct (map_outcome f l) as [bs|]; [|discriminate H]. simpl in H.
    injection H as <-. constructor; auto.
Qed.

Lemma counter_values_seq (n : nat) :
  forall total,
    counter_values total n
    = map (fun i => total + 1 + Z.of_nat i) (List.seq 0 n).
Proof.
  induction n as [|n IH]; intros total; [reflexivity|].
  cbn [counter_values List.seq map]. f_equal; [lia|].
  rewrite IH, <- seq_shift, map_map.
  apply map_ext. intros i. lia.
Qed.

Section ExtractorFacts.

Variables Page Image Png : Type.
Variable page_rect : Page -> Q * Q.
Variable render_gray : Page -> outcome Image.
Variable pyzbar_decode : Image -> outcome (list Decoded).
Variable threshold_127 : Image -> outcome Image.
Variable utf8_decode : string -> outcome string.
Variable clip_png : Page -> Z -> Z -> Z -> Z -> outcome Png.
Variable png_size : Png -> Z * Z.
Variable pil_ok : Picture Png -> bool.
Variable insert_ok : Placement Png -> bool.
Variable save_ok : list (OutPage Png) -> bool.

Local Abbreviation extract :=
  (extract_complete_qr_boxes Page Image Png page_rect render_gray
     pyzbar_decode threshold_127 utf8_decode clip_png).
Local Abbreviation collect :=
  (collect_boxes Page Image Png page_rect render_gray pyzbar_decode
     threshold_127 utf8_decode clip_png).
Local Abbreviation ticket := (make_ticket Png png_size pil_ok insert_ok).
Local Abbreviation tickets := (make_tickets Png png_size pil_ok insert_ok).
Local Abbreviation run :=
  (process_pdf Page Image Png page_rect render_gray pyzbar_decode
     threshold_127 utf8_decode clip_png png_size pil_ok insert_ok save_ok).

(** The fragment a ticket page carries, copy by copy. *)
Lemma make_ticket_ok (dw dh : Z) (scale : Q) (margin : Z) (position : string)
      (start : option Z) (mask : bool) (total : Z)
      (box : Geometry.CompleteBox Png) (page : OutPage Png) :
  ticket dw dh scale margin position start mask total box = Ok page ->
  exists pic png,
    Geometry.image box = Some png /\ source pic = png /\
    Forall (fun pl => picture pl = pic) (placed page) /\
    List.length (placed page) = List.length (positions_to_place position) /\
    is_masked pic = mask || is_not_None start /\
    stamped_number pic = option_map (fun s => s + total - 1) start /\
    stamped_text pic
    = option_map (fun s => format_03d (s + total - 1)) start.
Proof.
  unfold make_ticket. intros H.
  destruct (Geometry.image box) as [png|]; [|discriminate H].
  cbn [bind] in H. unfold pil in H at 1.
  destruct (pil_ok (Opened png)); [|discriminate H]. cbn [bind] in H.
  match type of H with
  | context [bind ?m _] => destruct m as [img|] eqn:Em; [|discriminate H]
  end.
  cbn [bind] in H. unfold pil in H.
  match type of H with
  | context [pil_ok ?p] => destruct (pil_ok p); [|discriminate H]
  end.
  cbn [bind] in H.
  match type of H with
  | context [map_outcome ?f ?l] =>
      destruct (map_outcome f l) as [images|] eqn:Ei; [|discriminate H]
  end.
  cbn [bind] in H. injection H as <-. cbn [placed].
  assert (Himg :
    source img = png /\
    is_masked img = mask || is_not_None start /\
    stamped_number img = option_map (fun s => s + total - 1) start /\
    stamped_text img
    = option_map (fun s => format_03d (s + total - 1)) start).
  { destruct (mask || is_not_None start) eqn:Eb.
    - unfold mask_awaiting_payment, pil in Em.
      match type of Em with
      | context [pil_ok ?p] => destruct (pil_ok p); [|discriminate Em]
      end.
      cbn [bind] in Em. destruct start as [s|].
      + match type of Em with
        | context [pil_ok ?p] => destruct (pil_ok p); [|discriminate Em]
        end.
        injection Em as <-. repeat split; reflexivity.
      + injection Em as <-. repeat split; reflexivity.
    - injection Em as <-.
      destruct start as [s|]; [destruct mask; discriminate Eb|].
      repeat split; reflexivity. }
  destruct Himg as (Hsrc & Hmask & Hnum & Htext).
  eexists (Resized img _ _), png.
  apply map_outcome_spec in Ei.
  split; [reflexivity|]. split; [exact Hsrc|]. split; [|split].
  - clear -Ei. induction Ei as [|pos pl ps pls Hpl _ IH];
      constructor; [|exact IH].
    destruct (place_at _ _ _ _ _ pos) as [bx by_].
    match type of Hpl with
    | context [insert_ok ?p] => destruct (insert_ok p); [|discriminate Hpl]
    end.
    injection Hpl as <-. reflexivity.
  - symmetry. exact (Forall2_length Ei).
  - cbn [is_masked stamped_number stamped_text]. auto.
Qed.


Lemma counter_values_length (n : nat) :
  forall total, List.length (counter_values total n) = n.
Proof. induction n; intros total; simpl; auto. Qed.

(** The ticket loop: the counter ends [length boxes] higher, and each
    box, in order, became one page, made at the next counter value. *)
Lemma make_tickets_spec (dw dh : Z) (scale : Q) (margin : Z)
      (position : string) (start : option Z) (mask : bool)
      (boxes : list (Geometry.CompleteBox Png)) :
  forall total pages out n,
    tickets dw dh scale margin position start mask boxes total pages
    = Ok (out, n) ->
    n = total + Z.of_nat (List.length boxes) /\
    exists new,
      out = pages ++ new /\
      Forall2 (fun cb page =>
                 ticket dw dh scale margin position start mask
                        (fst cb) (snd cb) = Ok page)
              (combine (counter_values total (List.length boxes)) boxes) new.
Proof.
  induction boxes as [|box rest IH]; intros total pages out n H.
  - simpl in H. injection H as <- <-. split; [simpl; lia|].
    exists []. split; [rewrite app_nil_r; reflexivity | constructor].
  - cbn [make_tickets] in H.
    destruct (ticket dw dh scale margin position start mask (total + 1) box)
      as [page|] eqn:Ep; [|discriminate H].
    cbn [bind] in H. apply IH in H. destruct H as (Hn & new & Hout & Hall).
    split; [cbn [List.length]; lia|].
    exists (page :: new). split.
    + rewrite Hout, <- app_assoc. reflexivity.
    + cbn [List.length counter_values combine]. constructor; assumption.
Qed.

Lemma collect_boxes_spec (doc : list Page) :
  forall boxes,
    collect doc = Ok boxes ->
    exists bss,
      Forall2 (fun page bs => extract page = Ok bs) doc bss /\
      boxes = List.concat bss.
Proof.
  induction doc as [|page rest IH]; intros boxes H.
  - simpl in H. injection H as <-. exists []. split; [constructor|reflexivity].
  - cbn [collect_boxes] in H.
    destruct (extract page) as [bs|] eqn:Eb; [|discriminate H].
    cbn [bind] in H.
    destruct (collect rest) as [others|]; [|discriminate H].
    cbn [bind] in H. injection H as <-.
    destruct (IH others eq_refl) as (bss & Hall & ->).
    exists (bs :: bss). split; [constructor; assumption | reflexivity].
Qed.

(** A completed run: scanning gave the boxes of each page, and the
    ticket loop ran over them in page-then-region order from counter 0. *)
Lemma process_pdf_inv (doc : list Page) (dw dh : Z) (scale : Q) (margin : Z)
      (position : string) (start : option Z) (mask : bool)
      (out : list (OutPage Png)) (ok : bool) (n : Z) :
  run doc dw dh scale margin position start mask = Ok (out, (ok, n)) ->
  ok = true /\
  exists bss,
    Forall2 (fun page bs => extract page = Ok bs) doc bss /\
    tickets dw dh scale margin position start mask (List.concat bss) 0 []
    = Ok (out, n).
Proof.
  unfold process_pdf. intros H.
  destruct (collect doc) as [boxes|] eqn:Ec; [|discriminate H].
  cbn [bind] in H.
  destruct (tickets dw dh scale margin position start mask boxes 0 [])
    as [[pages total]|] eqn:Et; [|discriminate H].
  cbn [bind fst snd] in H.
  destruct (save_ok pages); [|discriminate H].
  injection H as <- <- <-. split; [reflexivity|].
  destruct (collect_boxes_spec doc boxes Ec) as (bss & Hall & ->).
  exists bss. split; assumption.
Qed.

(** What the pages of the ticket loop show, list by list. *)
Lemma tickets_show (dw dh : Z) (scale : Q) (margin : Z) (position : string)
      (start : option Z) (mask : bool)
      (boxes : list (Geometry.CompleteBox Png)) :
  forall total new,
    Forall2 (fun cb page =>
               ticket dw dh scale margin position start mask
                      (fst cb) (snd cb) = Ok page)
            (combine (counter_values total (List.length boxes)) boxes) new ->
    List.length new = List.length boxes /\
    Forall (fun page =>
              List.length (placed page)
              = List.length (positions_to_place position) /\
              exists pic,
                Forall (fun pl => picture pl = pic) (placed page) /\
                is_masked pic = mask || is_not_None start) new /\
    (positions_to_place position <> [] ->
     map page_source new = map Geometry.image boxes /\
     map ticket_number_of new
     = map (fun c => option_map (fun s => s + c - 1) start)
           (counter_values total (List.length boxes)) /\
     map ticket_text_of new
     = map (fun c => option_map (fun s => format_03d (s + c - 1)) start)
           (counter_values total (List.length boxes))).
Proof.
  induction boxes as [|box rest IH]; intros total new Hall.
  - cbn in Hall. inversion Hall; subst.
    split; [reflexivity|]. split; [constructor|]. intros _.
    repeat split; reflexivity.
  - cbn [List.length counter_values combine] in Hall.
    inversion Hall as [|cb page cbs pages Hpage Hrest]; subst.
    cbn [fst snd] in Hpage.
    destruct (IH _ _ Hrest) as (Hlen & Hpages & Hshow).
    destruct (make_ticket_ok _ _ _ _ _ _ _ _ _ _ Hpage)
      as (pic & png & Himg & Hsrc & Hpics & Hcount & Hmask & Hnum & Htext).
    split; [cbn [List.length]; lia|]. split.
    + constructor; [|exact Hpages]. split; [exact Hcount|].
      exists pic. split; assumption.
    + intros Hpos. destruct (Hshow Hpos) as (Hs & Hn & Ht).
      assert (Hfirst : exists pl pls,
                 placed page = pl :: pls /\ picture pl = pic).
      { destruct (placed page) as [|pl pls].
        - destruct (positions_to_place position);
            [contradiction | discriminate Hcount].
        - exists pl, pls. split; [reflexivity|].
          inversion Hpics; assumption. }
      destruct Hfirst as (pl & pls & Epl & Epic).
      cbn [List.length counter_values map].
      unfold page_source at 1, ticket_number_of at 1, ticket_text_of at 1.
      rewrite Epl, Epic, Hsrc, Hnum, Htext, Himg, Hs, Hn, Ht.
      repeat split; reflexivity.
Qed.


Lemma positions_known (position : string) :
  In position ["left"%string; "right"%string; "both"%string] ->
  positions_to_place position <> [].
Proof.
  intros [<-|[<-|[<-|[]]]]; discriminate.
Qed.

(** C7.  With a starting number [start] and a placement mode that places
    something, the pages of a completed run carry, in page-then-region
    order of the detected boxes, the numbers [start], [start + 1], ...,
    [start + N - 1], stamped as zero-padded text; no number repeats, and
    the counter has advanced once per page: it ends at [N]. *)
Theorem ticket_numbers_contiguous
  (doc : list Page) (dw dh : Z) (scale : Q) (margin : Z) (position : string)
  (start : Z) (mask : bool) (out : list (OutPage Png)) (ok : bool) (n : Z)
  (Hpos : In position ["left"%string; "right"%string; "both"%string])
  (Hrun : run doc dw dh scale margin position (Some start) mask
          = Ok (out, (ok, n))) :
  n = Z.of_nat (List.length out) /\
  map ticket_number_of out
  = map (fun i => Some (start + Z.of_nat i)) (List.seq 0 (List.length out)) /\
  map ticket_text_of out
  = map (fun i => Some (format_03d (start + Z.of_nat i)))
        (List.seq 0 (List.length out)) /\
  NoDup (map ticket_number_of out) /\
  exists bss,
    Forall2 (fun page bs => extract page = Ok bs) doc bss /\
    map page_source out = map Geometry.image (List.concat bss).
Proof.
  destruct (process_pdf_inv _ _ _ _ _ _ _ _ _ _ _ Hrun)
    as (_ & bss & Hscan & Htickets).
  destruct (make_tickets_spec _ _ _ _ _ _ _ _ _ _ _ _ Htickets)
    as (Hn & new & Hout & Hall).
  cbn [app] in Hout. subst out.
  destruct (tickets_show _ _ _ _ _ _ _ _ _ _ Hall) as (Hlen & _ & Hshow).
  destruct (Hshow (positions_known _ Hpos)) as (Hsrc & Hnum & Htext).
  rewrite counter_values_seq, map_map in Hnum, Htext.
  cbn [option_map] in Hnum, Htext.
  assert (Enum : map ticket_number_of new
                 = map (fun i => Some (start + Z.of_nat i))
                       (List.seq 0 (List.length new))).
  { rewrite Hnum, Hlen. apply map_ext. intros i. f_equal. lia. }
  split; [lia|]. split; [exact Enum|]. split; [|split].
  - rewrite Htext, Hlen. apply map_ext. intros i. do 2 f_equal. lia.
  - rewrite Enum. apply Finite.Injective_map_NoDup; [|apply seq_NoDup].
    intros i j Hij. injection Hij as Hij. lia.
  - exists bss. split; assumption.
Qed.

Lemma make_tickets_mask_overridden (dw dh : Z) (scale : Q) (margin : Z)
      (position : string) (start : Z)
      (boxes : list (Geometry.CompleteBox Png)) :
  forall total pages,
    tickets dw dh scale margin position (Some start) false boxes total pages
    = tickets dw dh scale margin position (Some start) true boxes total pages.
Proof.
  induction boxes as [|box rest IH]; intros total pages; [reflexivity|].
  cbn [make_tickets].
  change (ticket dw dh scale margin position (Some start) false
                 (total + 1) box)
    with (ticket dw dh scale margin position (Some start) true
                 (total + 1) box).
  destruct (ticket dw dh scale margin position (Some start) true
                   (total + 1) box); [|reflexivity].
  cbn [bind]. apply IH.
Qed.

Local Abbreviation main_call :=
  (Extractor.main_call Page Image Png page_rect render_gray pyzbar_decode
     threshold_127 utf8_decode clip_png png_size pil_ok insert_ok save_ok).


Lemma map_outcome_total {A B} (f : A -> outcome B) (l : list A) :
  (forall a, exists b, f a = Ok b) -> exists r, map_outcome f l = Ok r.
Proof.
  intros Hf. induction l as [|a l (r & IH)]; [exists []; reflexivity|].
  destruct (Hf a) as (b & Hb). exists (b :: r).
  simpl. rewrite Hb. simpl. rewrite IH. reflexivity.
Qed.

(** Every box that comes out of the scan has its image. *)
Lemma extract_fills_images (page : Page)
      (bs : list (Geometry.CompleteBox Png)) :
  extract page = Ok bs -> Forall (fun b => Geometry.image b <> None) bs.
Proof.
  unfold extract_complete_qr_boxes. intros H.
  destruct (render_gray page) as [gray|]; [|discriminate H]. cbn [bind] in H.
  destruct (pyzbar_decode gray) as [decoded|]; [|discriminate H].
  cbn [bind] in H.
  destruct (scaled_regions utf8_decode decoded) as [regions|];
    [|discriminate H].
  cbn [bind] in H.
  match type of H with
  | context [bind ?m _] => destruct m as [regions'|]; [|discriminate H]
  end.
  cbn [bind] in H. apply map_outcome_spec in H.
  induction H as [|box b boxes bs' Hb _ IH]; constructor; [|exact IH].
  destruct (clip_png page _ _ _ _) as [png|]; [|discriminate Hb].
  injection Hb as <-. discriminate.
Qed.

Lemma make_ticket_completes (dw dh : Z) (scale : Q) (margin : Z)
      (position : string) (start : option Z) (mask : bool) (total : Z)
      (box : Geometry.CompleteBox Png) :
  (forall p, pil_ok p = true) -> (forall p, insert_ok p = true) ->
  Geometry.image box <> None ->
  exists page,
    ticket dw dh scale margin position start mask total box = Ok page.
Proof.
  intros Hpil Hins Himg. unfold make_ticket.
  destruct (Geometry.image box) as [png|]; [|contradiction].
  cbn [bind]. unfold mask_awaiting_payment, pil.
  rewrite Hpil. cbn [bind].
  assert (Hplace : forall f : string -> outcome (Placement Png),
             (forall pos, exists pl, f pos = Ok pl) ->
             exists images,
               map_outcome f (positions_to_place position) = Ok images)
    by (intros f Hf; apply map_outcome_total; exact Hf).
  assert (Hdone : forall (img : Picture Png) (w h : Z),
    exists page,
      (images <-
         map_outcome
           (fun pos =>
              let '(box_x, box_y) := place_at dw dh w h margin pos in
              let p := mkPlacement box_x box_y (box_x + w) (box_y + h) img in
              if insert_ok p then Ok p else Raise)
           (positions_to_place position) ;;
       Ok (mkOutPage dw dh images)) = Ok page).
  { intros img w h.
    match goal with
    | |- context [map_outcome ?f ?l] =>
        destruct (Hplace f) as (images & Ei)
    end.
    - intros pos. destruct (place_at dw dh w h margin pos) as [bx by_].
      cbn zeta. rewrite Hins. eexists. reflexivity.
    - rewrite Ei. eexists. reflexivity. }
  destruct (mask || is_not_None start).
  - rewrite Hpil. cbn [bind]. destruct start as [s|].
    + rewrite Hpil. cbn [bind]. rewrite Hpil. cbn [bind]. apply Hdone.
    + cbn [bind]. rewrite Hpil. cbn [bind]. apply Hdone.
  - cbn [bind]. rewrite Hpil. cbn [bind]. apply Hdone.
Qed.

Lemma make_tickets_completes (dw dh : Z) (scale : Q) (margin : Z)
      (position : string) (start : option Z) (mask : bool)
      (boxes : list (Geometry.CompleteBox Png)) :
  (forall p, pil_ok p = true) -> (forall p, insert_ok p = true) ->
  Forall (fun b => Geometry.image b <> None) boxes ->
  forall total pages, exists out,
    tickets dw dh scale margin position start mask boxes total pages
    = Ok (out, total + Z.of_nat (List.length boxes)).
Proof.
  intros Hpil Hins Hall.
  induction Hall as [|box rest Hbox _ IH]; intros total pages.
  - exists pages. cbn. f_equal. f_equal. lia.
  - cbn [make_tickets].
    destruct (make_ticket_completes dw dh scale margin position start mask
                (total + 1) box Hpil Hins Hbox) as (page & ->).
    cbn [bind]. destruct (IH (total + 1) (pages ++ [page])) as (out & ->).
    exists out. f_equal. f_equal. cbn [List.length]. lia.
Qed.

Lemma collect_boxes_complete (doc : list Page)
      (bss : list (list (Geometry.CompleteBox Png))) :
  Forall2 (fun page bs => extract page = Ok bs) doc bss ->
  collect doc = Ok (List.concat bss) /\
  Forall (fun b => Geometry.image b <> None) (List.concat bss).
Proof.
  induction 1 as [|page bs rest bss' Hbs _ [IHc IHi]].
  - split; [reflexivity | constructor].
  - cbn [collect_boxes List.concat]. rewrite Hbs. cbn [bind].
    rewrite IHc. cbn [bind]. split; [reflexivity|].
    apply Forall_app. split; [exact (extract_fills_images _ _ Hbs) | exact IHi].
Qed.

(** C10.  A completed run made one output page per detected box: the
    pages and the returned count both number the boxes found over all
    input pages; every page carries as many copies of one fragment as
    the placement mode asks for, two on the same page for ['both'].  And
    the run does complete, with that count, whenever the scan of every
    page succeeds and the Pillow and PyMuPDF calls go through. *)
Theorem one_page_per_box
  (doc : list Page) (dw dh : Z) (scale : Q) (margin : Z) (position : string)
  (start : option Z) (mask : bool) :
  (forall out ok n,
      run doc dw dh scale margin position start mask = Ok (out, (ok, n)) ->
      ok = true /\
      exists bss,
        Forall2 (fun page bs => extract page = Ok bs) doc bss /\
        List.length out = list_sum (map (@List.length _) bss) /\
        n = Z.of_nat (list_sum (map (@List.length _) bss)) /\
        Forall (fun page =>
                  List.length (placed page)
                  = List.length (positions_to_place position) /\
                  exists pic,
                    Forall (fun pl => picture pl = pic) (placed page))
               out /\
        (position = "both"%string ->
         Forall (fun page =>
                   exists a b, placed page = [a; b] /\ picture a = picture b)
                out)) /\
  (forall bss,
      Forall2 (fun page bs => extract page = Ok bs) doc bss ->
      (forall p, pil_ok p = true) -> (forall p, insert_ok p = true) ->
      (forall pages, save_ok pages = true) ->
      exists out,
        run doc dw dh scale margin position start mask
        = Ok (out, (true, Z.of_nat (list_sum (map (@List.length _) bss))))).
Proof.
  split.
  - intros out ok n Hrun.
    destruct (process_pdf_inv _ _ _ _ _ _ _ _ _ _ _ Hrun)
      as (Hok & bss & Hscan & Htickets).
    destruct (make_tickets_spec _ _ _ _ _ _ _ _ _ _ _ _ Htickets)
      as (Hn & new & Hout & Hall).
    cbn [app] in Hout. subst out.
    destruct (tickets_show _ _ _ _ _ _ _ _ _ _ Hall) as (Hlen & Hpages & _).
    rewrite length_concat in Hlen, Hn.
    split; [exact Hok|]. exists bss.
    split; [exact Hscan|]. split; [exact Hlen|]. split; [lia|]. split.
    + eapply Forall_impl; [|exact Hpages].
      intros page (Hcount & pic & Hpics & _).
      split; [exact Hcount | exists pic; exact Hpics].
    + intros ->. eapply Forall_impl; [|exact Hpages].
      intros page (Hcount & pic & Hpics & _). cbn in Hcount.
      destruct (placed page) as [|a [|b [|c rest]]]; try discriminate Hcount.
      exists a, b. split; [reflexivity|].
      inversion Hpics as [|? ? Ha Hrest]; subst.
      inversion Hrest as [|? ? Hb _]; subst. symmetry. exact Hb.
  - intros bss Hscan Hpil Hins Hsave.
    destruct (collect_boxes_complete doc bss Hscan) as (Hc & Himgs).
    destruct (make_tickets_completes dw dh scale margin position start mask
                (List.concat bss) Hpil Hins Himgs 0 []) as (out & Ht).
    exists out. unfold process_pdf. rewrite Hc. cbn [bind].
    rewrite Ht. cbn [bind fst snd]. rewrite Hsave.
    rewrite length_concat. reflexivity.
Qed.

End ExtractorFacts.

(** The sample document, mode ['both'], numbers from 7. *)
Lemma ticket_numbers_witness :
  exists out,
    Sample.run "both" (Some 7) false = Ok (out, (true, 3)) /\
    map ticket_number_of out
    = map (fun i => Some (7 + Z.of_nat i)) (List.seq 0 (List.length out)).
Proof.
  eexists. split; [vm_compute; reflexivity|].
  refine (proj1 (proj2
    (ticket_numbers_contiguous Sample.Page Sample.Page Sample.Png
       Sample.page_rect Ok Ok Ok Ok Sample.clip_png Sample.png_size
       (fun _ => true) (fun _ => true) (fun _ => true)
       Sample.doc 600 800 1 20 "both" 7 false _ true 3 _ _))).
  - right. right. left. reflexivity.
  - vm_compute. reflexivity.
Defined.


(** The sample document: three boxes over two pages, three pages out. *)
Lemma one_page_per_box_witness :
  exists out,
    Sample.run "both" None true = Ok (out, (true, 3)) /\
    Z.of_nat (List.length out) = 3.
Proof.
  eexists. split; [vm_compute; reflexivity|].
  match goal with
  | |- Z.of_nat (List.length ?pages) = _ =>
      assert (Hrun : Sample.run "both" None true = Ok (pages, (true, 3)))
        by (vm_compute; reflexivity);
      destruct (proj1 (one_page_per_box Sample.Page Sample.Page Sample.Png
                         Sample.page_rect Ok Ok Ok Ok Sample.clip_png
                         Sample.png_size (fun _ => true) (fun _ => true)
                         (fun _ => true) Sample.doc 600 800 1 20 "both"
                         None true)
                      pages true 3 Hrun)
        as (_ & bss & _ & Hlen & Hn & _)
  end.
  rewrite Hlen. symmetry. exact Hn.
Defined.

(* ===================================================================== *)
(** * Further properties of the code *)
(* ===================================================================== *)

(** ** The mask and the detected symbols *)

Lemma punch_returns_iff (page_width page_height padding : Z)
      (boxes : list (Z * Z * Z * Z)) :
  forall alpha,
    (exists out, punch page_width page_height padding boxes alpha = Ok out)
    <-> Forall (Notions.drawable page_width page_height padding) boxes.
Proof.
  induction boxes as [|[[[x y] w] h] rest IH]; intros alpha.
  - split; [constructor | exists alpha; reflexivity].
  - cbn [punch]. unfold Geometry.protection_bounds, rectangle.
    destruct ((Z.min page_width (x + w + padding) <? Z.max 0 (x - padding))
              || (Z.min page_height (y + h + padding)
                  <? Z.max 0 (y - padding))) eqn:E.
    + split; [intros (out & Hout); discriminate Hout|].
      intros Hall. inversion Hall as [|? ? Hd _]; subst.
      destruct Hd as [Hx Hy]. apply orb_true_iff in E. destruct E as [E|E];
        apply Z.ltb_lt in E; lia.
    + cbn [bind]. rewrite IH. apply orb_false_iff in E.
      destruct E as [Ex Ey]. apply Z.ltb_ge in Ex, Ey.
      split;
        [intros Hall; constructor; [split; assumption | exact Hall]|].
      intros Hall. inversion Hall; assumption.
Qed.

Lemma half_of_raster_pixel_in_region (c e u p : Z) :
  0 <= c <= u -> u < c + e -> 0 <= p ->
  Z.max 0 (Geometry.to_page_units 2 c - p) <= u / 2 /\
  u / 2 <= Geometry.to_page_units 2 c + Geometry.to_page_units 2 e + p.
Proof.
  intros Hc Hu Hp. unfold Geometry.to_page_units.
  rewrite !py_int_truediv by lia.
  rewrite !Z.quot_div_nonneg by lia.
  pose proof (Z.div_mod c 2 ltac:(lia)).
  pose proof (Z.div_mod e 2 ltac:(lia)).
  pose proof (Z.div_mod u 2 ltac:(lia)).
  pose proof (Z.mod_pos_bound c 2 ltac:(lia)).
  pose proof (Z.mod_pos_bound e 2 ltac:(lia)).
  pose proof (Z.mod_pos_bound u 2 ltac:(lia)).
  lia.
Qed.

Lemma overlay_clears_protected (page_width page_height : Z)
      (design_alpha : Alpha) (boxes : list (Z * Z * Z * Z)) (opacity : Q)
      (padding : Z) (alpha : Alpha) (px py : Z) :
  overlay_alpha page_width page_height design_alpha boxes opacity padding
  = Ok alpha ->
  protectedb page_width page_height padding boxes px py = true ->
  value_at alpha px py = 0.
Proof.
  intros Hrun Hprot. unfold overlay_alpha in Hrun.
  destruct boxes as [|b rest]; [discriminate Hprot|].
  cbn [py_not] in Hrun.
  rewrite (punch_spec _ _ _ _ _ _ Hrun px py), Hprot. reflexivity.
Qed.

Lemma raster_pixel_protected (page_width page_height padding : Z)
      (boxes : list (Z * Z * Z * Z)) (r : Geometry.Rect) (u v : Z) :
  0 <= padding ->
  In (Geometry.to_page_units 2 (Geometry.left r),
      Geometry.to_page_units 2 (Geometry.top r),
      Geometry.to_page_units 2 (Geometry.rwidth r),
      Geometry.to_page_units 2 (Geometry.rheight r)) boxes ->
  0 <= Geometry.left r <= u -> u < Geometry.left r + Geometry.rwidth r ->
  0 <= Geometry.top r <= v -> v < Geometry.top r + Geometry.rheight r ->
  u / 2 < page_width -> v / 2 < page_height ->
  protectedb page_width page_height padding boxes (u / 2) (v / 2) = true.
Proof.
  intros Hp Hin Hx Hu Hy Hv Hpw Hph.
  unfold protectedb. apply existsb_exists. eexists. split; [exact Hin|].
  cbn. unfold in_rectangle.
  destruct (half_of_raster_pixel_in_region _ _ _ _ Hx Hu Hp) as [Hx1 Hx2].
  destruct (half_of_raster_pixel_in_region _ _ _ _ Hy Hv Hp) as [Hy1 Hy2].
  repeat (apply andb_true_intro; split); apply Z.leb_le; lia.
Qed.

(** X1.  A detected symbol is never covered: with a padding that is not
    negative, every raster pixel of a detected symbol's rectangle whose
    page pixel lies on the page has alpha 0 there, on the web service's
    path and on the command-line tool's path, whatever the opacity and
    the design. *)
Theorem detected_symbol_stays_visible
  (W H : Q) (design_alpha : Alpha) (opacity : Q) (padding : Z)
  (alpha : Alpha) (r : Geometry.Rect) (u v : Z)
  (Hpad : 0 <= padding)
  (Hx : 0 <= Geometry.left r <= u)
  (Hu : u < Geometry.left r + Geometry.rwidth r)
  (Hy : 0 <= Geometry.top r <= v)
  (Hv : v < Geometry.top r + Geometry.rheight r)
  (Hpw : u / 2 < py_int W) (Hph : v / 2 < py_int H) :
  (forall qr_codes qr,
      In qr qr_codes -> bbox qr = r ->
      apply_overlay_alpha W H design_alpha (map pdf_coords qr_codes)
                          opacity padding = Ok alpha ->
      value_at alpha (u / 2) (v / 2) = 0) /\
  (forall qr_codes qr,
      In qr qr_codes ->
      Geometry.mkRect (rx qr) (ry qr) (rw qr) (rh qr) = r ->
      process_pdf_alpha W H design_alpha qr_codes opacity padding
      = Ok alpha ->
      value_at alpha (u / 2) (v / 2) = 0).
Proof.
  split.
  - intros qr_codes qr Hin <- Hrun. unfold apply_overlay_alpha in Hrun.
    apply (overlay_clears_protected _ _ _ _ _ _ _ _ _ Hrun).
    apply (raster_pixel_protected _ _ _ _ (bbox qr)); try assumption.
    rewrite map_map. apply in_map_iff. exists qr. split; [|exact Hin].
    reflexivity.
  - intros qr_codes qr Hin <- Hrun. unfold process_pdf_alpha in Hrun.
    apply (overlay_clears_protected _ _ _ _ _ _ _ _ _ Hrun).
    apply (raster_pixel_protected _ _ _ _
             (Geometry.mkRect (rx qr) (ry qr) (rw qr) (rh qr)));
      try assumption.
    apply in_map_iff. exists qr. split; [reflexivity | exact Hin].
Qed.

Lemma detected_symbol_stays_visible_witness :
  exists alpha,
    apply_overlay_alpha 600 800 (mkAlpha 600 800 (fun _ _ => 255))
      (map pdf_coords [mkRegion (Geometry.mkRect 101 100 51 50) "T-1"])
      (7 # 10) 0 = Ok alpha /\
    value_at alpha (151 / 2) (149 / 2) = 0.
Proof.
  eexists. split; [reflexivity|].
  refine (proj1 (detected_symbol_stays_visible 600 800
                   (mkAlpha 600 800 (fun _ _ => 255)) (7 # 10) 0 _
                   (Geometry.mkRect 101 100 51 50) 151 149
                   _ _ _ _ _ _ _)
                [mkRegion (Geometry.mkRect 101 100 51 50) "T-1"]
                (mkRegion (Geometry.mkRect 101 100 51 50) "T-1")
                _ _ _);
    try (simpl; lia); try reflexivity.
  left. reflexivity.
Defined.

Lemma protectedb_grows (page_width page_height p p' : Z)
      (boxes : list (Z * Z * Z * Z)) (px py : Z) :
  p <= p' ->
  protectedb page_width page_height p boxes px py = true ->
  protectedb page_width page_height p' boxes px py = true.
Proof.
  intros Hle. unfold protectedb. rewrite !existsb_exists.
  intros ([[[x y] w] h] & Hin & Hrect). exists (x, y, w, h).
  split; [exact Hin|]. cbn in *. unfold in_rectangle in *.
  repeat match goal with
         | H : _ && _ = true |- _ => apply andb_prop in H; destruct H
         | H : (_ <=? _) = true |- _ => apply Z.leb_le in H
         end.
  repeat (apply andb_true_intro; split); apply Z.leb_le; lia.
Qed.

Lemma overlay_alpha_values (page_width page_height : Z)
      (design_alpha : Alpha) (boxes : list (Z * Z * Z * Z)) (opacity : Q)
      (padding : Z) (alpha : Alpha) :
  overlay_alpha page_width page_height design_alpha boxes opacity padding
  = Ok alpha ->
  forall px py,
    value_at alpha px py
    = if py_not boxes
      then clip8 (py_int (inject_Z (value_at design_alpha px py) * opacity))
      else if protectedb page_width page_height padding boxes px py
           then 0 else clip8 (py_int (255 * opacity)).
Proof.
  intros Hrun px py. unfold overlay_alpha in Hrun.
  destruct boxes as [|b rest]; cbn [py_not] in *.
  - injection Hrun as <-. reflexivity.
  - rewrite (punch_spec _ _ _ _ _ _ Hrun px py). reflexivity.
Qed.

(** X2.  More padding never exposes a pixel: for the same page, design,
    regions and opacity, every pixel inside a protected rectangle at
    padding [p] is inside one at any larger padding, and every pixel that
    is fully transparent in the overlay at padding [p] is fully
    transparent at the larger padding. *)
Theorem more_padding_never_exposes
  (page_width page_height : Z) (design_alpha : Alpha)
  (boxes : list (Z * Z * Z * Z)) (opacity : Q) (p p' : Z)
  (alpha alpha' : Alpha)
  (Hle : p <= p')
  (Hrun : overlay_alpha page_width page_height design_alpha boxes opacity p
          = Ok alpha)
  (Hrun' : overlay_alpha page_width page_height design_alpha boxes opacity p'
           = Ok alpha') :
  forall px py,
    (protectedb page_width page_height p boxes px py = true ->
     protectedb page_width page_height p' boxes px py = true) /\
    (value_at alpha px py = 0 -> value_at alpha' px py = 0).
Proof.
  intros px py. split; [apply protectedb_grows; exact Hle|].
  rewrite (overlay_alpha_values _ _ _ _ _ _ _ Hrun),
    (overlay_alpha_values _ _ _ _ _ _ _ Hrun').
  destruct (py_not boxes); [auto|].
  destruct (protectedb page_width page_height p boxes px py) eqn:E.
  - rewrite (protectedb_grows _ _ _ _ _ _ _ Hle E). reflexivity.
  - destruct (protectedb page_width page_height p' boxes px py); auto.
Qed.

Lemma more_padding_never_exposes_witness :
  exists alpha alpha',
    overlay_alpha 600 800 (mkAlpha 600 800 (fun _ _ => 255))
                  [(50, 50, 25, 25)] (7 # 10) 5 = Ok alpha /\
    overlay_alpha 600 800 (mkAlpha 600 800 (fun _ _ => 255))
                  [(50, 50, 25, 25)] (7 # 10) 15 = Ok alpha' /\
    (value_at alpha 45 45 = 0 -> value_at alpha' 45 45 = 0).
Proof.
  eexists. eexists. split; [reflexivity|]. split; [reflexivity|].
  refine (proj2 (more_padding_never_exposes 600 800
                   (mkAlpha 600 800 (fun _ _ => 255)) [(50, 50, 25, 25)]
                   (7 # 10) 5 15 _ _ _ _ _ 45 45));
    [lia | reflexivity | reflexivity].
Defined.

Lemma py_int_times_one (p : Z) : py_int (inject_Z p * 1) = p.
Proof.
  unfold py_int, Qmult, inject_Z. simpl. rewrite Z.mul_1_r.
  apply Z.quot_1_r.
Qed.

Lemma py_int_times_zero (q : Q) : py_int (q * 0) = 0.
Proof.
  unfold py_int, Qmult. simpl. rewrite Z.mul_0_r. apply Z.quot_0_l.
  discriminate.
Qed.

(** X3.  The two ends of the opacity range.  At opacity 1 a page with no
    detected region gets the design's own 8-bit alpha unchanged; at
    opacity 0 the overlay is fully transparent at every pixel, with or
    without regions. *)
Theorem opacity_one_and_zero
  (page_width page_height : Z) (design_alpha : Alpha) (padding : Z)
  (Hdesign : forall px py, 0 <= value_at design_alpha px py <= 255) :
  (exists alpha,
      overlay_alpha page_width page_height design_alpha [] 1 padding
      = Ok alpha /\
      forall px py, value_at alpha px py = value_at design_alpha px py) /\
  (forall boxes alpha,
      overlay_alpha page_width page_height design_alpha boxes 0 padding
      = Ok alpha ->
      forall px py, value_at alpha px py = 0).
Proof.
  split.
  - eexists. split; [reflexivity|]. intros px py. cbn [value_at point].
    rewrite py_int_times_one. apply clip8_id. apply Hdesign.
  - intros boxes alpha Hrun px py.
    rewrite (overlay_alpha_values _ _ _ _ _ _ _ Hrun).
    rewrite !py_int_times_zero.
    destruct (py_not boxes); [reflexivity|].
    destruct (protectedb _ _ _ _ _ _); reflexivity.
Qed.

Lemma opacity_one_and_zero_witness :
  exists alpha,
    overlay_alpha 600 800 (mkAlpha 600 800 (fun px _ => px mod 256)) [] 1 15
    = Ok alpha /\
    forall px py, value_at alpha px py = px mod 256.
Proof.
  refine (proj1 (opacity_one_and_zero 600 800
                   (mkAlpha 600 800 (fun px _ => px mod 256)) 15 _)).
  intros px py. cbn [value_at].
  pose proof (Z.mod_pos_bound px 256 ltac:(lia)). lia.
Defined.

Lemma existsb_permutation {A} (f : A -> bool) (l l' : list A) :
  Permutation l l' -> existsb f l = existsb f l'.
Proof.
  induction 1 as [|a l l' _ IH|a b l|l l' l'' _ IH1 _ IH2]; simpl.
  - reflexivity.
  - rewrite IH. reflexivity.
  - destruct (f a), (f b); reflexivity.
  - rewrite IH1. exact IH2.
Qed.

Lemma overlay_returns_iff (page_width page_height : Z)
      (design_alpha : Alpha) (boxes : list (Z * Z * Z * Z)) (opacity : Q)
      (padding : Z) :
  (exists alpha,
      overlay_alpha page_width page_height design_alpha boxes opacity padding
      = Ok alpha)
  <-> Forall (Notions.drawable page_width page_height padding) boxes.
Proof.
  unfold overlay_alpha. destruct boxes as [|b rest]; cbn [py_not].
  - split; [constructor | eexists; reflexivity].
  - apply punch_returns_iff.
Qed.

(** X4.  The mask does not depend on the order in which the regions were
    detected: for two orderings of the same regions, the overlay is
    produced for one exactly when it is for the other, and then the two
    masks agree at every pixel. *)
Theorem mask_ignores_detection_order
  (page_width page_height : Z) (design_alpha : Alpha)
  (boxes boxes' : list (Z * Z * Z * Z)) (opacity : Q) (padding : Z)
  (Hperm : Permutation boxes boxes') :
  ((exists alpha,
       overlay_alpha page_width page_height design_alpha boxes opacity
                     padding = Ok alpha)
   <-> (exists alpha',
           overlay_alpha page_width page_height design_alpha boxes'
                         opacity padding = Ok alpha')) /\
  (forall alpha alpha',
      overlay_alpha page_width page_height design_alpha boxes opacity padding
      = Ok alpha ->
      overlay_alpha page_width page_height design_alpha boxes' opacity
                    padding = Ok alpha' ->
      forall px py, value_at alpha px py = value_at alpha' px py).
Proof.
  split.
  - rewrite !overlay_returns_iff. split; apply Permutation_Forall;
      [exact Hperm | apply Permutation_sym; exact Hperm].
  - intros alpha alpha' Hrun Hrun' px py.
    rewrite (overlay_alpha_values _ _ _ _ _ _ _ Hrun),
      (overlay_alpha_values _ _ _ _ _ _ _ Hrun').
    unfold protectedb. rewrite (existsb_permutation _ _ _ Hperm).
    assert (Hnot : py_not boxes = py_not boxes').
    { destruct boxes, boxes'; try reflexivity.
      - apply Permutation_nil in Hperm. discriminate Hperm.
      - apply Permutation_sym, Permutation_nil in Hperm.
        discriminate Hperm. }
    rewrite Hnot. reflexivity.
Qed.

Lemma mask_ignores_detection_order_witness :
  let design := mkAlpha 600 800 (fun _ _ => 255) in
  exists alpha alpha',
    overlay_alpha 600 800 design [(50, 50, 25, 25); (300, 50, 25, 25)]
                  (7 # 10) 15 = Ok alpha /\
    overlay_alpha 600 800 design [(300, 50, 25, 25); (50, 50, 25, 25)]
                  (7 # 10) 15 = Ok alpha' /\
    value_at alpha 310 60 = value_at alpha' 310 60.
Proof.
  cbn zeta. eexists. eexists.
  split; [reflexivity|]. split; [reflexivity|].
  exact (proj2 (mask_ignores_detection_order 600 800
                  (mkAlpha 600 800 (fun _ _ => 255))
                  [(50, 50, 25, 25); (300, 50, 25, 25)]
                  [(300, 50, 25, 25); (50, 50, 25, 25)] (7 # 10) 15
                  (perm_swap _ _ _))
               _ _ eq_refl eq_refl 310 60).
Defined.

(** ** The contour fallback *)

Lemma keeps_lift (P : Region -> Prop) {A} (o : outcome A) :
  Notions.keeps P (lift o).
Proof. intros st H. exact H. Qed.

Lemma keeps_append (P : Region -> Prop) (r : Region) :
  P r -> Notions.keeps P (append r).
Proof.
  intros Hr st H. cbn. apply Forall_app. split; [exact H|].
  constructor; [exact Hr | constructor].
Qed.

Lemma keeps_seq (P : Region -> Prop) {A B} (m : M A) (k : A -> M B) :
  Notions.keeps P m -> (forall a, Notions.keeps P (k a)) ->
  Notions.keeps P (Detector.seq m k).
Proof.
  intros Hm Hk st H. unfold Detector.seq.
  specialize (Hm st H). destruct (m st) as [[a|] st']; cbn [snd] in *.
  - apply Hk. exact Hm.
  - exact Hm.
Qed.

Lemma keeps_seq_lift (P : Region -> Prop) {A B} (o : outcome A)
      (k : A -> M B) :
  (forall a, o = Ok a -> Notions.keeps P (k a)) ->
  Notions.keeps P (Detector.seq (lift o) k).
Proof.
  intros Hk st H. unfold Detector.seq, lift.
  destruct o as [a|]; [|exact H]. apply (Hk a eq_refl). exact H.
Qed.

Lemma keeps_for_each (P : Region -> Prop) {A} (body : A -> M unit)
      (l : list A) :
  (forall a, Notions.keeps P (body a)) -> Notions.keeps P (for_each body l).
Proof.
  intros Hbody. induction l as [|a l IH]; cbn [for_each].
  - apply (keeps_lift P (Ok tt)).
  - apply keeps_seq; [apply Hbody | intros _; exact IH].
Qed.

Lemma squarish_shape (w h : Z) (aspect : Q) :
  aspect_ratio w h = Ok aspect -> squarish aspect w h = true ->
  50 < w /\ 50 < h /\ 8 * h < 10 * w /\ 10 * w < 12 * h.
Proof.
  unfold aspect_ratio, squarish, Qlt_bool, Qle_bool, truediv.
  intros Ha Hs.
  destruct (h =? 0); [discriminate Ha|]. injection Ha as <-.
  repeat match goal with
         | H : _ && _ = true |- _ => apply andb_prop in H; destruct H
         end.
  repeat match goal with
         | H : (_ <? _) = true |- _ => apply Z.ltb_lt in H
         | H : negb _ = true |- _ => apply negb_true_iff, Z.leb_gt in H
         end.
  destruct h as [|p|p]; try lia.
  unfold Qdiv, Qinv, Qmult, inject_Z in *.
  cbn -[Z.mul Pos.mul Z.lt] in *. rewrite ?Pos2Z.inj_mul in *. lia.
Qed.

Section ContourFacts.

Variables Image Contour : Type.
Variable cvtColor_gray : Image -> outcome Image.
Variable canny_contours : Image -> outcome (list Contour).
Variable approx_quad : Contour -> outcome (option Geometry.Rect).
Variable _is_likely_qr : Image -> Geometry.Rect -> bool.

Lemma contours_body_keeps_shape (image : Image) :
  Notions.keeps Notions.contour_shaped
    (contours_body Image Contour cvtColor_gray canny_contours approx_quad
                   _is_likely_qr image).
Proof.
  unfold contours_body.
  apply keeps_seq; [apply keeps_lift | intros gray].
  apply keeps_seq; [apply keeps_lift | intros contours].
  apply keeps_for_each. intros contour. unfold contour_step.
  apply keeps_seq; [apply keeps_lift | intros approx].
  destruct approx as [r|]; [|apply (keeps_lift _ (Ok tt))].
  apply keeps_seq_lift. intros aspect Ha.
  destruct (squarish aspect (Geometry.rwidth r) (Geometry.rheight r))
    eqn:Es; [|apply (keeps_lift _ (Ok tt))].
  destruct (_is_likely_qr gray r); [|apply (keeps_lift _ (Ok tt))].
  apply keeps_append. unfold Notions.contour_shaped. cbn [bbox payload].
  split; [reflexivity|]. exact (squarish_shape _ _ _ Ha Es).
Qed.

(** X5.  The contour fallback never raises and leaves its caller's list
    alone; every region it returns has an empty payload, both sides over
    50 raster pixels and an aspect ratio strictly between 0.8 and 1.2. *)
Theorem contour_fallback_regions (image : Image) (st : Frame) :
  exists found,
    fst (_detect_qr_by_contours Image Contour cvtColor_gray canny_contours
                                approx_quad _is_likely_qr image st)
    = Ok found /\
    Forall Notions.contour_shaped found /\
    regions (snd (_detect_qr_by_contours Image Contour cvtColor_gray
                    canny_contours approx_quad _is_likely_qr image st))
    = regions st.
Proof.
  unfold _detect_qr_by_contours, call.
  pose proof (contours_body_keeps_shape image
                (mkFrame [] (stdout st) (ran st)) (Forall_nil _)) as Hkeep.
  unfold try_except.
  destruct (contours_body Image Contour cvtColor_gray canny_contours
              approx_quad _is_likely_qr image
              (mkFrame [] (stdout st) (ran st))) as [[[]|] st'];
    cbn [snd] in Hkeep; cbn.
  - exists (regions st'). repeat split; [exact Hkeep].
  - exists (regions st'). repeat split; [exact Hkeep].
Qed.

End ContourFacts.

(** ** Fragment extraction, masking band, stamped text, placement *)

Lemma map_outcome_length {A B} (f : A -> outcome B) (l : list A)
      (r : list B) :
  map_outcome f l = Ok r -> List.length r = List.length l.
Proof.
  intros H. symmetry. exact (Forall2_length (map_outcome_spec f l r H)).
Qed.

Lemma py_not_same_length {A B} (l : list A) (r : list B) :
  List.length r = List.length l -> py_not r = py_not l.
Proof. destruct l, r; simpl; intros H; congruence. Qed.

Section ExtractionFacts.

Variables Page Image Png : Type.
Variable page_rect : Page -> Q * Q.
Variable render_gray : Page -> outcome Image.
Variable pyzbar_decode : Image -> outcome (list Decoded).
Variable threshold_127 : Image -> outcome Image.
Variable utf8_decode : string -> outcome string.
Variable clip_png : Page -> Z -> Z -> Z -> Z -> outcome Png.

Local Abbreviation extract :=
  (extract_complete_qr_boxes Page Image Png page_rect render_gray
     pyzbar_decode threshold_127 utf8_decode clip_png).

(** X6.  The boxes of a page are those of the symbols of one decode, in
    the decoder's order: the direct decode when it found a symbol,
    otherwise the decode of the thresholded raster.  Each box is the
    expansion of its symbol's rectangle halved, carries the symbol's
    decoded text, and holds the clip rendered for exactly that box. *)
Theorem extract_one_box_per_symbol
  (page : Page) (boxes : list (Geometry.CompleteBox Png))
  (Hrun : extract page = Ok boxes) :
  exists gray symbols,
    render_gray page = Ok gray /\
    (pyzbar_decode gray = Ok symbols /\ symbols <> [] \/
     pyzbar_decode gray = Ok [] /\
     exists binary,
       threshold_127 gray = Ok binary /\
       pyzbar_decode binary = Ok symbols) /\
    Forall2
      (fun symbol box =>
         exists text png,
           data_of utf8_decode symbol = Ok text /\
           let b := Geometry.expand_box (Img:=Png)
                      (fst (page_rect page)) (snd (page_rect page))
                      (Geometry.toPageSpace 2 (rect symbol) text) in
           clip_png page (Geometry.x b) (Geometry.y b) (Geometry.width b)
                    (Geometry.height b) = Ok png /\
           box = Geometry.mkBox (Geometry.x b) (Geometry.y b)
                                (Geometry.width b) (Geometry.height b)
                                text (Some png))
      symbols boxes.
Proof.
  unfold extract_complete_qr_boxes in Hrun.
  destruct (render_gray page) as [gray|]; [|discriminate Hrun].
  cbn [bind] in Hrun.
  destruct (pyzbar_decode gray) as [decoded|] eqn:Ed; [|discriminate Hrun].
  cbn [bind] in Hrun.
  destruct (scaled_regions utf8_decode decoded) as [regions|] eqn:Er;
    [|discriminate Hrun].
  cbn [bind] in Hrun.
  assert (Hboxes :
    forall symbols regions',
      scaled_regions utf8_decode symbols = Ok regions' ->
      map_outcome
        (fun box : Geometry.CompleteBox Png =>
           png <- clip_png page (Geometry.x box) (Geometry.y box)
                           (Geometry.width box) (Geometry.height box) ;;
           Ok (Geometry.mkBox (Geometry.x box) (Geometry.y box)
                 (Geometry.width box) (Geometry.height box)
                 (Geometry.qr_data box) (Some png)))
        (map (Geometry.expand_box (fst (page_rect page))
                                  (snd (page_rect page))) regions')
      = Ok boxes ->
      Forall2
        (fun symbol box =>
           exists text png,
             data_of utf8_decode symbol = Ok text /\
             let b := Geometry.expand_box (Img:=Png)
                        (fst (page_rect page)) (snd (page_rect page))
                        (Geometry.toPageSpace 2 (rect symbol) text) in
             clip_png page (Geometry.x b) (Geometry.y b) (Geometry.width b)
                      (Geometry.height b) = Ok png /\
             box = Geometry.mkBox (Geometry.x b) (Geometry.y b)
                                  (Geometry.width b) (Geometry.height b)
                                  text (Some png))
        symbols boxes).
  { clear. intros symbols regions' Hs Hb.
    apply map_outcome_spec in Hs. apply map_outcome_spec in Hb.
    revert boxes Hb.
    induction Hs as [|symbol region symbols regions' Hone _ IH];
      intros boxes Hb; cbn [map] in Hb; inversion Hb; subst;
      constructor.
    - destruct (data_of utf8_decode symbol) as [text|]; [|discriminate Hone].
      cbn [bind] in Hone. injection Hone as <-.
      match goal with
      | H : bind ?m _ = Ok _ |- _ =>
          destruct m as [png|] eqn:Ec; [|discriminate H];
          cbn [bind] in H; injection H as <-
      end.
      exists text, png. split; [reflexivity|]. split; [exact Ec|reflexivity].
    - apply IH. assumption. }
  pose proof (map_outcome_length _ _ _ Er) as Hlen.
  rewrite (py_not_same_length _ _ Hlen) in Hrun.
  exists gray. destruct decoded as [|symbol rest]; cbn [py_not] in Hrun.
  - destruct (threshold_127 gray) as [binary|] eqn:Et; [|discriminate Hrun].
    cbn [bind] in Hrun.
    destruct (pyzbar_decode binary) as [decoded'|] eqn:Ed';
      [|discriminate Hrun].
    cbn [bind] in Hrun.
    destruct (scaled_regions utf8_decode decoded') as [regions'|] eqn:Er';
      [|discriminate Hrun].
    cbn [bind] in Hrun. exists decoded'.
    split; [reflexivity|]. split.
    + right. split; [exact Ed|]. exists binary.
      split; first [reflexivity | assumption].
    + exact (Hboxes _ _ Er' Hrun).
  - exists (symbol :: rest). split; [reflexivity|]. split.
    + left. split; [exact Ed | discriminate].
    + exact (Hboxes _ _ Er Hrun).
Qed.

End ExtractionFacts.

Lemma extract_one_box_per_symbol_witness :
  exists boxes,
    extract_complete_qr_boxes Sample.Page Sample.Page Sample.Png
      Sample.page_rect Ok Ok Ok Ok Sample.clip_png
      [mkDecoded (Geometry.mkRect 200 400 100 100) "T-1"] = Ok boxes /\
    List.length boxes = 1%nat.
Proof.
  eexists. split; [reflexivity|].
  match goal with
  | |- List.length ?bs = _ =>
      destruct (extract_one_box_per_symbol Sample.Page Sample.Page
                  Sample.Png Sample.page_rect Ok Ok Ok Ok Sample.clip_png
                  [mkDecoded (Geometry.mkRect 200 400 100 100) "T-1"]
                  bs eq_refl)
        as (gray & symbols & Hg & Hd & Hall)
  end.
  injection Hg as <-.
  destruct Hd as [[Hd _] | [Hd _]]; [|discriminate Hd].
  injection Hd as <-. reflexivity.
Defined.

Lemma py_int_fraction (h num : Z) (den : positive) :
  0 <= h -> 0 <= num ->
  py_int (inject_Z h * (num # den)) = h * num / Z.pos den.
Proof.
  intros Hh Hn. unfold py_int, Qmult, inject_Z.
  cbn -[Z.mul Pos.mul Z.quot Z.div]. rewrite Pos.mul_1_l.
  apply Z.quot_div_nonneg; nia.
Qed.

Section MaskFacts.

Variable Png : Type.
Variable png_size : Png -> Z * Z.
Variable pil_ok : Picture Png -> bool.

Local Abbreviation mask := (mask_awaiting_payment Png png_size pil_ok).
Local Abbreviation height_of := (pic_height Png png_size).
Local Abbreviation width_of := (pic_width Png png_size).

(** X7.  [mask_awaiting_payment] blanks the band from 15% to 30% of the
    fragment's height, both rounded down: the band starts at or above
    its end, lies within the fragment, and so is a rectangle Pillow
    accepts; the picture keeps its size; the number is stamped exactly
    when one is given. *)
Theorem mask_band_within_fragment
  (img : Picture Png) (ticket_number : option Z) (out : Picture Png)
  (Hheight : 0 <= height_of img)
  (Hrun : mask img ticket_number = Ok out) :
  exists y_start y_end,
    (ticket_number = None /\ out = Masked img y_start y_end \/
     exists n, ticket_number = Some n /\
               out = Stamped (Masked img y_start y_end) n (format_03d n)) /\
    0 <= y_start <= y_end /\ y_end <= height_of img /\
    20 * y_start <= 3 * height_of img < 20 * y_start + 20 /\
    10 * y_end <= 3 * height_of img < 10 * y_end + 10 /\
    width_of out = width_of img /\ height_of out = height_of img.
Proof.
  unfold mask_awaiting_payment, pil in Hrun.
  rewrite !py_int_fraction in Hrun by lia.
  set (h := height_of img) in *.
  set (ys := h * 15 / 100) in *. set (ye := h * 30 / 100) in *.
  assert (Hys : 20 * ys <= 3 * h < 20 * ys + 20).
  { subst ys. pose proof (Z.div_mod (h * 15) 100 ltac:(lia)).
    pose proof (Z.mod_pos_bound (h * 15) 100 ltac:(lia)). lia. }
  assert (Hye : 10 * ye <= 3 * h < 10 * ye + 10).
  { subst ye. pose proof (Z.div_mod (h * 30) 100 ltac:(lia)).
    pose proof (Z.mod_pos_bound (h * 30) 100 ltac:(lia)). lia. }
  destruct (pil_ok (Masked img ys ye)); [|discriminate Hrun].
  cbn [bind] in Hrun. exists ys, ye.
  assert (Hband : 0 <= ys <= ye /\ ye <= h) by lia.
  destruct ticket_number as [n|].
  - destruct (pil_ok (Stamped (Masked img ys ye) n (format_03d n)));
      [|discriminate Hrun].
    injection Hrun as <-.
    split; [right; exists n; split; reflexivity|].
    repeat split; try lia; reflexivity.
  - injection Hrun as <-. split; [left; split; reflexivity|].
    repeat split; try lia; reflexivity.
Qed.

End MaskFacts.

Lemma mask_band_within_fragment_witness :
  exists out,
    mask_awaiting_payment Sample.Png Sample.png_size (fun _ => true)
      (Opened (80, 120, 90, 140)) (Some 7) = Ok out /\
    out = Stamped (Masked (Opened (80, 120, 90, 140)) 42 84) 7 "007".
Proof.
  eexists. split; [reflexivity|].
  destruct (mask_band_within_fragment Sample.Png Sample.png_size
              (fun _ => true) (Opened (80, 120, 90, 140)) (Some 7) _
              ltac:(cbn; lia) eq_refl)
    as (ys & ye & _). reflexivity.
Defined.

(** ** Stamped text *)

Lemma zeros_length (n : nat) : String.length (zeros n) = n.
Proof. induction n; simpl; congruence. Qed.

Lemma string_length_app (a b : string) :
  String.length (a ++ b) = (String.length a + String.length b)%nat.
Proof. induction a; simpl; congruence. Qed.

Lemma zfill_length (w : nat) (s : string) :
  String.length (zfill w s) = Nat.max w (String.length s).
Proof. unfold zfill. rewrite string_length_app, zeros_length. lia. Qed.

Lemma uint_of_zeros (n : nat) (s : string) (d : Decimal.uint) :
  NilEmpty.uint_of_string s = Some d ->
  exists d',
    NilEmpty.uint_of_string (zeros n ++ s) = Some d' /\
    N.of_uint d' = N.of_uint d.
Proof.
  intros H. induction n as [|n (d' & Hd' & Hn)]; [exists d; auto|].
  exists (Decimal.D0 d'). cbn [zeros String.append NilEmpty.uint_of_string].
  rewrite Hd'. split; [reflexivity | exact Hn].
Qed.

Lemma digits_read_back (m : N) (w : nat) :
  exists d,
    NilEmpty.uint_of_string
      (zfill w (NilZero.string_of_uint (N.to_uint m))) = Some d /\
    N.of_uint d = m.
Proof.
  assert (H : NilEmpty.uint_of_string
                (NilZero.string_of_uint (N.to_uint m))
              = Some (N.to_uint m)).
  { destruct (N.to_uint m) eqn:E; try apply NilEmpty.usu.
    destruct m as [|p]; [discriminate E|].
    cbn in E. pose proof (DecimalPos.Unsigned.to_uint_nonnil p).
    contradiction. }
  destruct (uint_of_zeros
              (w - String.length (NilZero.string_of_uint (N.to_uint m)))
              _ _ H) as (d & Hd & Hn).
  exists d. split; [exact Hd|].
  rewrite Hn. apply DecimalN.Unsigned.of_to.
Qed.

Lemma zfill_nonempty (w : nat) (s : string) :
  (0 < w)%nat -> zfill w s <> EmptyString.
Proof.
  intros Hw E. apply (f_equal String.length) in E.
  rewrite zfill_length in E. simpl in E. lia.
Qed.

Lemma read_int_format (n : Z) : Notions.read_int (format_03d n) = Some n.
Proof.
  unfold Notions.read_int, format_03d.
  destruct (n <? 0) eqn:En.
  - apply Z.ltb_lt in En.
    destruct (digits_read_back (Z.abs_N n) 2) as (d & Hd & Hn).
    unfold NilZero.int_of_string, NilZero.uint_of_string.
    cbn [Ascii.eqb Bool.eqb].
    destruct (zfill 2 _) eqn:Ez;
      [exfalso; revert Ez; apply zfill_nonempty; lia|].
    rewrite Hd. cbn [option_map Z.of_int]. f_equal.
    change (Z.of_uint d) with (Z.of_N (N.of_uint d)).
    rewrite Hn, N2Z.inj_abs_N. lia.
  - apply Z.ltb_ge in En.
    destruct (digits_read_back (Z.abs_N n) 3) as (d & Hd & Hn).
    unfold NilZero.int_of_string, NilZero.uint_of_string.
    destruct (zfill 3 _) as [|c rest] eqn:Ez;
      [exfalso; revert Ez; apply zfill_nonempty; lia|].
    destruct (Ascii.eqb c "-") eqn:Ec.
    + apply Ascii.eqb_eq in Ec. subst c.
      cbn [NilEmpty.uint_of_string] in Hd.
      destruct (NilEmpty.uint_of_string rest); discriminate Hd.
    + rewrite Hd. cbn [option_map Z.of_int]. f_equal.
      change (Z.of_uint d) with (Z.of_N (N.of_uint d)).
      rewrite Hn, N2Z.inj_abs_N. lia.
Qed.

Lemma format_03d_injective (a b : Z) : format_03d a = format_03d b -> a = b.
Proof.
  intros E. pose proof (read_int_format a) as Ha.
  rewrite E, read_int_format in Ha. injection Ha as Ha. symmetry. exact Ha.
Qed.

(** X8.  The stamped text reads back as the number: [f"{n:03d}"]
    followed by [int] is the identity on every integer, so distinct
    ticket numbers are stamped as distinct texts; the text is never
    shorter than three characters. *)
Theorem format_03d_reads_back :
  (forall n, Notions.read_int (format_03d n) = Some n) /\
  (forall a b, format_03d a = format_03d b -> a = b) /\
  (forall n, (3 <= String.length (format_03d n))%nat).
Proof.
  split; [exact read_int_format|]. split; [exact format_03d_injective|].
  intros n. unfold format_03d. destruct (n <? 0).
  - cbn [String.length]. rewrite zfill_length. lia.
  - rewrite zfill_length. lia.
Qed.

(** ** Where a fragment lands *)

(** X9.  With a margin that is not negative, a placed fragment lies on
    the page exactly when it fits beside the margin in both directions
    ([w + m <= W] and [h + m <= H]); the re-clamp to the margin does not
    make a fragment that is too large fit.  This holds for the left
    position and for any other position string, which is treated as
    right. *)
Theorem placement_on_page_iff_fits
  (W H w h m : Z) (position : string) (Hm : 0 <= m) :
  Notions.placement_on_page W H w h (place_at W H w h m position)
  <-> w + m <= W /\ h + m <= H.
Proof.
  unfold Notions.placement_on_page, place_at.
  destruct (position =? "left")%string; cbn [fst snd];
    repeat match goal with
           | |- context [?a <? ?b] =>
               let E := fresh "E" in
               destruct (a <? b) eqn:E;
               [apply Z.ltb_lt in E | apply Z.ltb_ge in E]
           end; cbn [fst snd]; lia.
Qed.

Lemma placement_on_page_iff_fits_witness :
  Notions.placement_on_page 600 800 100 50
    (place_at 600 800 100 50 20 "right") /\
  ~ Notions.placement_on_page 600 800 100 900
      (place_at 600 800 100 900 20 "left").
Proof.
  split.
  - apply (placement_on_page_iff_fits 600 800 100 50 20 "right"); lia.
  - intros Hon.
    apply (placement_on_page_iff_fits 600 800 100 900 20 "left") in Hon;
      lia.
Defined.

(** X10.  In mode ['both'] the two copies stand at the same height.  When
    the fragment fits beside the margin ([w + m <= W]) the left copy
    starts at [m] and the right copy ends at [W - m], and they do not
    overlap exactly when [2 * (w + m) <= W]; when it does not fit, both
    copies land on the same spot. *)
Theorem both_copies_side_by_side
  (W H w h m : Z) (Hm : 0 <= m) :
  exists xl xr y,
    planPlacements W H w h m "both" = [(xl, y); (xr, y)] /\
    xl = m /\
    (w + m <= W -> xr + w = W - m /\ (xl + w <= xr <-> 2 * (w + m) <= W)) /\
    (W < w + m -> xr = xl).
Proof.
  unfold planPlacements, place_at. cbn [positions_to_place String.eqb map].
  cbn -[Z.ltb Z.sub Z.add Z.mul].
  destruct (H - h - m <? 0);
    destruct (W - w - m <? 0) eqn:Ex;
    [apply Z.ltb_lt in Ex | apply Z.ltb_ge in Ex
     | apply Z.ltb_lt in Ex | apply Z.ltb_ge in Ex];
    destruct (m <? 0) eqn:Em;
    try (apply Z.ltb_lt in Em; lia);
    eexists; eexists; eexists;
    (split; [reflexivity|]); repeat split; intros; lia.
Qed.

Lemma both_copies_side_by_side_witness :
  exists xl xr y,
    planPlacements 600 800 100 50 20 "both" = [(xl, y); (xr, y)] /\
    xl = 20 /\
    (100 + 20 <= 600 ->
     xr + 100 = 600 - 20 /\ (xl + 100 <= xr <-> 2 * (100 + 20) <= 600)) /\
    (600 < 100 + 20 -> xr = xl).
Proof.
  exact (both_copies_side_by_side 600 800 100 50 20 ltac:(lia)).
Defined.

(** ** The command-line tool's detection and page overlay *)

Section StandaloneFacts.

Variables Source Image Page Design : Type.
Variable load_gray : Source -> outcome Image.
Variable pyzbar_decode : Image -> outcome (list Decoded).
Variable threshold_127 : Image -> outcome Image.
Variable utf8_decode : string -> outcome string.
Variable page_rect : Page -> Q * Q.
Variable render_png : Page -> outcome Source.
Variable resized_alpha : Design -> Z -> Z -> outcome Alpha.

Local Abbreviation detect_codes :=
  (Standalone.detect_qr_codes Source Image load_gray pyzbar_decode
     threshold_127 utf8_decode).
Local Abbreviation overlay_of :=
  (Standalone.overlay_page Source Image Page Design load_gray pyzbar_decode
     threshold_127 utf8_decode page_rect render_png resized_alpha).

Lemma codes_of_spec (symbols : list Decoded) (codes : list RasterCode) :
  Standalone.codes_of utf8_decode symbols = Ok codes ->
  Forall2
    (fun symbol code =>
       exists text,
         data_of utf8_decode symbol = Ok text /\
         code = mkCode (Geometry.left (rect symbol))
                       (Geometry.top (rect symbol))
                       (Geometry.rwidth (rect symbol))
                       (Geometry.rheight (rect symbol)) text)
    symbols codes.
Proof.
  intros H. apply map_outcome_spec in H.
  induction H as [|symbol code symbols codes Hone _ IH]; constructor;
    [|exact IH].
  destruct (data_of utf8_decode symbol) as [text|]; [|discriminate Hone].
  cbn [bind] in Hone. injection Hone as <-. exists text. split; reflexivity.
Qed.


(** X12.  The page overlay of the command-line tool never covers a
    symbol it detected: when the overlay of a page is produced with a
    padding that is not negative, every raster pixel of every detected
    rectangle whose page pixel lies on the page has alpha 0 there. *)
Theorem standalone_page_protects_symbols
  (design : Design) (opacity : Q) (padding : Z) (page : Page)
  (alpha : Alpha)
  (Hpad : 0 <= padding)
  (Hrun : overlay_of design opacity padding page = Ok alpha) :
  exists img_data codes,
    render_png page = Ok img_data /\
    detect_codes img_data = Ok codes /\
    forall qr u v,
      In qr codes ->
      Notions.symbol_pixel (Geometry.mkRect (rx qr) (ry qr) (rw qr) (rh qr))
        (py_int (fst (page_rect page))) (py_int (snd (page_rect page)))
        u v ->
      value_at alpha (u / 2) (v / 2) = 0.
Proof.
  unfold Standalone.overlay_page in Hrun.
  destruct (render_png page) as [img_data|]; [|discriminate Hrun].
  cbn [bind] in Hrun.
  destruct (detect_codes img_data) as [codes|] eqn:Ed; [|discriminate Hrun].
  cbn [bind] in Hrun.
  destruct (resized_alpha _ _ _) as [design_alpha|]; [|discriminate Hrun].
  cbn [bind] in Hrun. unfold process_pdf_alpha in Hrun.
  exists img_data, codes. split; [reflexivity|]. split; [exact Ed|].
  intros qr u v Hin (Hx & Hu & Hy & Hv & Hpw & Hph).
  apply (overlay_clears_protected _ _ _ _ _ _ _ _ _ Hrun).
  apply (raster_pixel_protected _ _ _ _
           (Geometry.mkRect (rx qr) (ry qr) (rw qr) (rh qr)));
    try assumption.
  apply in_map_iff. exists qr. split; [reflexivity | exact Hin].
Qed.

End StandaloneFacts.


Lemma standalone_page_protects_symbols_witness :
  let page := [mkDecoded (Geometry.mkRect 101 100 51 50) "T-1"] in
  exists alpha,
    Standalone.overlay_page Sample.Page Sample.Page Sample.Page unit
      Ok Ok Ok Ok Sample.page_rect Ok
      (fun _ w h => Ok (mkAlpha w h (fun _ _ => 255))) tt (7 # 10) 0 page
    = Ok alpha /\
    value_at alpha (151 / 2) (149 / 2) = 0.
Proof.
  cbn zeta. eexists. split; [reflexivity|].
  match goal with
  | |- value_at ?a _ _ = 0 =>
      destruct (standalone_page_protects_symbols Sample.Page Sample.Page
                  Sample.Page unit Ok Ok Ok Ok Sample.page_rect Ok
                  (fun _ w h => Ok (mkAlpha w h (fun _ _ => 255))) tt
                  (7 # 10) 0
                  [mkDecoded (Geometry.mkRect 101 100 51 50) "T-1"]
                  a ltac:(lia) eq_refl)
        as (img_data & codes & Hr & Hd & Hclear)
  end.
  injection Hr as <-. injection Hd as <-.
  apply (Hclear (mkCode 101 100 51 50 "T-1") 151 149).
  - left. reflexivity.
  - unfold Notions.symbol_pixel. cbn. lia.
Defined.

(** ** The web service's document passes *)

Lemma upfrom_length (len : nat) : forall n, List.length (Notions.upfrom n len) = len.
Proof. induction len; intros n; simpl; auto. Qed.

Lemma upfrom_nth (len : nat) :
  forall n i, (i < len)%nat ->
    nth_error (Notions.upfrom n len) i = Some (n + Z.of_nat i).
Proof.
  induction len as [|len IH]; intros n i Hi; [lia|].
  destruct i as [|i]; cbn [Notions.upfrom nth_error].
  - f_equal. lia.
  - rewrite IH by lia. f_equal. lia.
Qed.

Lemma Forall2_nth {A B} (R : A -> B -> Prop) (l : list A) (l' : list B) :
  Forall2 R l l' ->
  forall i a b,
    nth_error l i = Some a -> nth_error l' i = Some b -> R a b.
Proof.
  induction 1 as [|x y l l' Hxy _ IH]; intros i a b Ha Hb.
  - destruct i; discriminate Ha.
  - destruct i as [|i]; cbn in Ha, Hb.
    + injection Ha as <-. injection Hb as <-. exact Hxy.
    + exact (IH i a b Ha Hb).
Qed.

Section ServiceFacts.

Variables Page Image Contour Design : Type.
Variable render : Page -> outcome Image.
Variable page_rect : Page -> Q * Q.
Variable get_text : Page -> outcome TicketText.str.
Variable pyzbar_decode : Image -> outcome (list Decoded).
Variable utf8_decode : string -> outcome string.
Variable cvtColor_gray threshold_127 : Image -> outcome Image.
Variable canny_contours : Image -> outcome (list Contour).
Variable approx_quad : Contour -> outcome (option Geometry.Rect).
Variable _is_likely_qr : Image -> Geometry.Rect -> bool.
Variable open_design : outcome Design.
Variable resized_alpha : Design -> Z -> Z -> outcome Alpha.

Local Abbreviation detect_regions :=
  (Service.detect_qr_codes Image Contour pyzbar_decode utf8_decode
     cvtColor_gray threshold_127 canny_contours approx_quad _is_likely_qr).
Local Abbreviation info_of :=
  (Service.page_info Page Image Contour render page_rect get_text
     pyzbar_decode utf8_decode cvtColor_gray threshold_127 canny_contours
     approx_quad _is_likely_qr).
Local Abbreviation scan_from :=
  (Service.scan Page Image Contour render page_rect get_text pyzbar_decode
     utf8_decode cvtColor_gray threshold_127 canny_contours approx_quad
     _is_likely_qr).
Local Abbreviation pdf_info :=
  (Service.extract_pdf_info Page Image Contour render page_rect get_text
     pyzbar_decode utf8_decode cvtColor_gray threshold_127 canny_contours
     approx_quad _is_likely_qr).
Local Abbreviation overlay_all :=
  (Service.apply_overlay Page Image Contour Design render page_rect
     get_text pyzbar_decode utf8_decode cvtColor_gray threshold_127
     canny_contours approx_quad _is_likely_qr open_design resized_alpha).
Local Abbreviation overlay_one :=
  (Service.overlay_page Page Design page_rect resized_alpha).

Lemma detect_regions_returns (img : Image) :
  exists found, detect_regions img = Ok found.
Proof.
  unfold Service.detect_qr_codes.
  destruct (detect_spec Image Contour pyzbar_decode utf8_decode
              cvtColor_gray threshold_127 canny_contours approx_quad
              _is_likely_qr img) as (out & E).
  rewrite E. eexists. reflexivity.
Qed.

Lemma scan_spec (doc : list Page) :
  forall n results out,
    scan_from doc n results = Ok out ->
    exists new,
      Service.pages out = Service.pages results ++ new /\
      Forall2 (fun np info => info_of (fst np) (snd np) = Ok info)
              (combine (Notions.upfrom n (List.length doc)) doc) new /\
      Service.total_tickets out
      = Service.total_tickets results
        + Z.of_nat (list_sum (map (fun p => List.length (Service.tickets p))
                                  new)) /\
      Service.total_qr_codes out
      = Service.total_qr_codes results
        + Z.of_nat (list_sum (map (fun p => List.length (Service.qr_codes p))
                                  new)).
Proof.
  induction doc as [|page rest IH]; intros n results out H.
  - cbn in H. injection H as <-. exists [].
    rewrite app_nil_r. cbn. repeat split; try lia. constructor.
  - cbn [Service.scan] in H.
    destruct (info_of n page) as [info|] eqn:Ei; [|discriminate H].
    cbn [bind] in H. apply IH in H.
    destruct H as (new & Hp & Hall & Ht & Hq).
    cbn [Service.pages Service.total_tickets Service.total_qr_codes]
      in Hp, Ht, Hq.
    exists (info :: new). split; [rewrite Hp, <- app_assoc; reflexivity|].
    split; [constructor; assumption|].
    cbn [map]. unfold list_sum. cbn [fold_right].
    fold (list_sum (map (fun p => List.length (Service.tickets p)) new)).
    fold (list_sum (map (fun p => List.length (Service.qr_codes p)) new)).
    split; lia.
Qed.

Lemma page_info_num (n : Z) (page : Page) (info : Service.PageInfo) :
  info_of n page = Ok info ->
  Service.page_num info = n /\
  Service.width info = fst (page_rect page) /\
  Service.height info = snd (page_rect page) /\
  exists img found,
    render page = Ok img /\ detect_regions img = Ok found /\
    Service.qr_codes info = map pdf_coords found.
Proof.
  unfold Service.page_info. intros H.
  destruct (render page) as [img|]; [|discriminate H]. cbn [bind] in H.
  destruct (detect_regions img) as [found|] eqn:Ed; [|discriminate H].
  cbn [bind] in H.
  destruct (get_text page) as [text|]; [|discriminate H]. cbn [bind] in H.
  injection H as <-. cbn. repeat split.
  exists img, found. repeat split. exact Ed.
Qed.

(** X13.  What [extract_pdf_info] returns is consistent: one entry per
    page of the document, numbered 0, 1, 2, ... in order, each with its
    page's size and the halved rectangles of the regions detected on its
    raster; and the two totals are the sums of the per-page list
    lengths. *)
Theorem extract_pdf_info_totals
  (doc : list Page) (results : Service.Results)
  (Hrun : pdf_info doc = Ok results) :
  List.length (Service.pages results) = List.length doc /\
  map Service.page_num (Service.pages results)
  = map Z.of_nat (List.seq 0 (List.length doc)) /\
  Forall2 (fun page info =>
             Service.width info = fst (page_rect page) /\
             Service.height info = snd (page_rect page) /\
             exists img found,
               render page = Ok img /\ detect_regions img = Ok found /\
               Service.qr_codes info = map pdf_coords found)
          doc (Service.pages results) /\
  Service.total_qr_codes results
  = Z.of_nat (list_sum (map (fun p => List.length (Service.qr_codes p))
                            (Service.pages results))) /\
  Service.total_tickets results
  = Z.of_nat (list_sum (map (fun p => List.length (Service.tickets p))
                            (Service.pages results))).
Proof.
  unfold Service.extract_pdf_info in Hrun.
  destruct (scan_spec _ _ _ _ Hrun) as (new & Hp & Hall & Ht & Hq).
  cbn [Service.pages Service.total_tickets Service.total_qr_codes app]
    in Hp, Ht, Hq.
  rewrite Hp. clear Hrun Hp.
  assert (Hgen : forall n,
    Forall2 (fun np info => info_of (fst np) (snd np) = Ok info)
            (combine (Notions.upfrom n (List.length doc)) doc) new ->
    List.length new = List.length doc /\
    map Service.page_num new
    = map (fun i => n + Z.of_nat i) (List.seq 0 (List.length doc)) /\
    Forall2 (fun page info =>
               Service.width info = fst (page_rect page) /\
               Service.height info = snd (page_rect page) /\
               exists img found,
                 render page = Ok img /\ detect_regions img = Ok found /\
                 Service.qr_codes info = map pdf_coords found)
            doc new).
  { clear Hall Ht Hq. revert new.
    induction doc as [|page rest IH]; intros new n Hall;
      cbn [List.length Notions.upfrom combine] in Hall;
      inversion Hall as [|np info nps infos Hone Hrest]; subst.
    - repeat split. constructor.
    - cbn [fst snd] in Hone.
      destruct (page_info_num _ _ _ Hone) as (Hnum & Hw & Hh & Hregions).
      destruct (IH _ _ Hrest) as (Hlen & Hnums & Hinfos).
      split; [cbn [List.length]; lia|]. split.
      + cbn [List.length List.seq map]. f_equal; [lia|].
        rewrite Hnums, <- seq_shift, map_map.
        apply map_ext. intros i. lia.
      + constructor; [|exact Hinfos]. repeat split; assumption. }
  destruct (Hgen 0 Hall) as (Hlen & Hnums & Hinfos).
  split; [exact Hlen|]. split; [exact Hnums|]. split; [exact Hinfos|].
  split; [exact Hq | exact Ht].
Qed.

(** X14.  Detection never makes [extract_pdf_info] fail: it returns a
    result exactly when every page can be rendered and its text read. *)
Theorem extract_pdf_info_returns_iff (doc : list Page) :
  (exists results, pdf_info doc = Ok results)
  <-> Forall (fun page =>
                (exists img, render page = Ok img) /\
                (exists text, get_text page = Ok text)) doc.
Proof.
  unfold Service.extract_pdf_info.
  generalize 0 (Service.mkResults [] 0 0).
  induction doc as [|page rest IH]; intros n results.
  - split; [constructor | eexists; reflexivity].
  - cbn [Service.scan]. unfold Service.page_info.
    destruct (render page) as [img|] eqn:Er; cbn [bind].
    + destruct (detect_regions_returns img) as (found & ->). cbn [bind].
      destruct (get_text page) as [text|] eqn:Et; cbn [bind].
      * rewrite IH. split.
        -- intros H. constructor; [|exact H].
           split; eexists; eassumption.
        -- intros H. inversion H; assumption.
      * split; [intros (r & H); discriminate H|].
        intros H. inversion H as [|? ? (_ & text & Ht) _]; subst.
        congruence.
    + split; [intros (r & H); discriminate H|].
      intros H. inversion H as [|? ? ((img & Hi) & _) _]; subst.
      congruence.
Qed.


Lemma nth_error_numbered (doc : list Page) :
  forall (n : Z) (i : nat) (page : Page),
    nth_error doc i = Some page ->
    nth_error (combine (Notions.upfrom n (List.length doc)) doc) i
    = Some (n + Z.of_nat i, page).
Proof.
  induction doc as [|p rest IH]; intros n i page H;
    [destruct i; discriminate H|].
  destruct i as [|i]; cbn in H |- *.
  - injection H as <-. f_equal. f_equal. lia.
  - rewrite (IH (n + 1) i page H). f_equal. f_equal. lia.
Qed.

Lemma doc_page_nth (doc : list Page) (i : nat) (page : Page) :
  nth_error doc i = Some page ->
  Service.doc_page Page doc (Z.of_nat i) = Ok page.
Proof.
  intros H.
  assert (Hi : (i < List.length doc)%nat)
    by (apply nth_error_Some; congruence).
  unfold Service.doc_page.
  replace (Z.of_nat i <? Z.of_nat (List.length doc)) with true
    by (symmetry; apply Z.ltb_lt; lia).
  rewrite Z.mod_small by lia. rewrite Nat2Z.id, H. reflexivity.
Qed.

(** X15.  [apply_overlay] makes one overlay per page, and no overlay
    covers a symbol detected on its page: with a padding that is not
    negative, on the overlay of the [i]-th page every raster pixel of
    every region [_detect_qr_codes] found on that page's raster, whose
    page pixel lies on the page, has alpha 0. *)
Theorem service_overlay_protects_symbols
  (doc : list Page) (opacity : Q) (padding : Z) (overlays : list Alpha)
  (Hpad : 0 <= padding)
  (Hrun : overlay_all doc opacity padding = Ok overlays) :
  List.length overlays = List.length doc /\
  forall i page alpha,
    nth_error doc i = Some page -> nth_error overlays i = Some alpha ->
    exists img found,
      render page = Ok img /\ detect_regions img = Ok found /\
      forall qr u v,
        In qr found ->
        Notions.symbol_pixel (bbox qr)
          (py_int (fst (page_rect page))) (py_int (snd (page_rect page)))
          u v ->
        value_at alpha (u / 2) (v / 2) = 0.
Proof.
  unfold Service.apply_overlay in Hrun.
  destruct (pdf_info doc) as [results|] eqn:Einfo; [|discriminate Hrun].
  cbn [bind] in Hrun.
  destruct open_design as [design|]; [|discriminate Hrun].
  cbn [bind] in Hrun. apply map_outcome_spec in Hrun.
  unfold Service.extract_pdf_info in Einfo.
  destruct (scan_spec _ _ _ _ Einfo) as (new & Hp & Hall & _).
  cbn [Service.pages app] in Hp. rewrite Hp in Hrun. clear Hp Einfo.
  pose proof (Forall2_length Hall) as Hlen.
  pose proof (Forall2_length Hrun) as Hlen'.
  rewrite length_combine, upfrom_length, Nat.min_id in Hlen.
  split; [lia|].
  intros i page alpha Hpage Halpha.
  assert (Hi : (i < List.length new)%nat).
  { rewrite Hlen'. apply nth_error_Some. congruence. }
  destruct (nth_error new i) as [info|] eqn:Einfo;
    [|apply nth_error_None in Einfo; lia].
  pose proof (Forall2_nth _ _ _ Hall i _ _
                (nth_error_numbered doc 0 i page Hpage) Einfo) as Hinfo.
  cbn [fst snd] in Hinfo.
  change (0 + Z.of_nat i) with (Z.of_nat i) in Hinfo.
  destruct (page_info_num _ _ _ Hinfo)
    as (Hnum & _ & _ & img & found & Hr & Hd & Hq).
  pose proof (Forall2_nth _ _ _ Hrun i _ _ Einfo Halpha) as Hover.
  unfold Service.overlay_page in Hover.
  rewrite Hnum, (doc_page_nth doc i page Hpage) in Hover.
  cbn [bind] in Hover.
  destruct (resized_alpha _ _ _) as [design_alpha|]; [|discriminate Hover].
  cbn [bind] in Hover. rewrite Hq in Hover.
  unfold apply_overlay_alpha in Hover.
  exists img, found. split; [exact Hr|]. split; [exact Hd|].
  intros qr u v Hin (Hx & Hu & Hy & Hv & Hpw & Hph).
  apply (overlay_clears_protected _ _ _ _ _ _ _ _ _ Hover).
  apply (raster_pixel_protected _ _ _ _ (bbox qr)); try assumption.
  rewrite map_map. apply in_map_iff. exists qr. split; [reflexivity|].
  exact Hin.
Qed.

End ServiceFacts.

Lemma extract_pdf_info_totals_witness :
  exists results,
    Service.extract_pdf_info Sample.Page Sample.Page unit Ok
      Sample.page_rect (fun _ => Ok []) Ok Ok Ok Ok (fun _ => Ok [])
      (fun _ => Ok None) (fun _ _ => false) Sample.doc = Ok results /\
    Service.total_qr_codes results
    = Z.of_nat (list_sum (map (fun p => List.length (Service.qr_codes p))
                              (Service.pages results))).
Proof.
  eexists. split; [vm_compute; reflexivity|].
  refine (proj1 (proj2 (proj2 (proj2
    (extract_pdf_info_totals Sample.Page Sample.Page unit Ok
       Sample.page_rect (fun _ => Ok []) Ok Ok Ok Ok (fun _ => Ok [])
       (fun _ => Ok None) (fun _ _ => false) Sample.doc _ _))))).
  vm_compute. reflexivity.
Defined.

Lemma service_overlay_protects_symbols_witness :
  exists overlays,
    Service.apply_overlay Sample.Page Sample.Page unit unit Ok
      Sample.page_rect (fun _ => Ok []) Ok Ok Ok Ok (fun _ => Ok [])
      (fun _ => Ok None) (fun _ _ => false) (Ok tt)
      (fun _ w h => Ok (mkAlpha w h (fun _ _ => 255)))
      Sample.doc (7 # 10) 15 = Ok overlays /\
    List.length overlays = List.length Sample.doc.
Proof.
  eexists. split; [reflexivity|].
  refine (proj1
    (service_overlay_protects_symbols Sample.Page Sample.Page unit unit Ok
       Sample.page_rect (fun _ => Ok []) Ok Ok Ok Ok (fun _ => Ok [])
       (fun _ => Ok None) (fun _ _ => false) (Ok tt)
       (fun _ w h => Ok (mkAlpha w h (fun _ _ => 255)))
       Sample.doc (7 # 10) 15 _ _ _)); [lia | reflexivity].
Defined.

Lemma extract_pdf_info_returns_iff_witness :
  exists results,
    Service.extract_pdf_info Sample.Page Sample.Page unit Ok
      Sample.page_rect (fun _ => Ok []) Ok Ok Ok Ok (fun _ => Ok [])
      (fun _ => Ok None) (fun _ _ => false) Sample.doc = Ok results.
Proof.
  apply (extract_pdf_info_returns_iff Sample.Page Sample.Page unit Ok
           Sample.page_rect (fun _ => Ok []) Ok Ok Ok Ok (fun _ => Ok [])
           (fun _ => Ok None) (fun _ _ => false) Sample.doc).
  repeat constructor; eexists; reflexivity.
Defined.

(** ** Ticket details from the page text *)

Lemma typed_truthy (t : TicketText.Ticket) :
  TicketText.typed t = true -> TicketText.truthy t = true.
Proof.
  unfold TicketText.typed, TicketText.truthy. intros ->. reflexivity.
Qed.

Lemma flush_invariant (seen : list TicketText.str)
      (tickets : list TicketText.Ticket) (cur : TicketText.Ticket) :
  TicketText.loop_invariant seen (tickets, cur) ->
  Forall (fun t => TicketText.truthy t = true)
         (TicketText.flush tickets cur) /\
  map TicketText.type
      (filter TicketText.typed (TicketText.flush tickets cur))
  = map Some seen /\
  Forall (fun t => TicketText.typed t = true)
         (tl (TicketText.flush tickets cur)).
Proof.
  unfold TicketText.loop_invariant, TicketText.types_so_far.
  cbn [fst snd]. intros (H1 & H2 & H3 & H4). unfold TicketText.flush.
  destruct (TicketText.truthy cur) eqn:Et.
  - split; [apply Forall_app; split; [exact H1|]; constructor; auto|].
    split.
    + rewrite filter_app, map_app. cbn [filter].
      destruct (TicketText.typed cur); exact H2.
    + destruct tickets as [|t ts]; [constructor|]. cbn [tl app] in *.
      apply Forall_app. split; [exact H3|].
      constructor; [apply H4; discriminate | constructor].
  - assert (Hnot : TicketText.typed cur = false).
    { destruct (TicketText.typed cur) eqn:E; [|reflexivity].
      apply typed_truthy in E. congruence. }
    rewrite Hnot, app_nil_r in H2. repeat split; assumption.
Qed.

Lemma step_invariant (seen : list TicketText.str)
      (st : list TicketText.Ticket * TicketText.Ticket)
      (raw_line : TicketText.str) :
  TicketText.loop_invariant seen st ->
  TicketText.loop_invariant
    (seen ++ filter TicketText.opens_ticket [TicketText.strip raw_line])
    (TicketText.step st raw_line).
Proof.
  destruct st as [tickets cur]. intros Hinv. unfold TicketText.step.
  cbn [filter].
  destruct (TicketText.opens_ticket (TicketText.strip raw_line)).
  - destruct (flush_invariant _ _ _ Hinv) as (F1 & F2 & F3).
    unfold TicketText.loop_invariant, TicketText.types_so_far.
    cbn [fst snd TicketText.typed TicketText.type TicketText.is_set].
    split; [exact F1|]. split; [rewrite F2, map_app; reflexivity|].
    split; [exact F3 | reflexivity].
  - rewrite app_nil_r.
    assert (Hset : forall cur',
      TicketText.type cur' = TicketText.type cur ->
      TicketText.loop_invariant seen (tickets, cur')).
    { intros cur' Ety. revert Hinv.
      unfold TicketText.loop_invariant, TicketText.types_so_far,
        TicketText.typed.
      cbn [fst snd]. rewrite Ety. auto. }
    repeat match goal with
           | |- context [if ?c then _ else _] => destruct c
           end; first [apply Hset; reflexivity | exact Hinv].
Qed.

Lemma fold_invariant (lines : list TicketText.str) :
  forall seen st,
    TicketText.loop_invariant seen st ->
    TicketText.loop_invariant
      (seen ++ filter TicketText.opens_ticket (map TicketText.strip lines))
      (fold_left TicketText.step lines st).
Proof.
  induction lines as [|line lines IH]; intros seen st Hinv.
  - cbn. rewrite app_nil_r. exact Hinv.
  - cbn [fold_left map].
    pose proof (IH _ _ (step_invariant _ _ line Hinv)) as H.
    rewrite <- app_assoc in H.
    replace (filter TicketText.opens_ticket
               (TicketText.strip line :: map TicketText.strip lines))
      with (filter TicketText.opens_ticket [TicketText.strip line]
            ++ filter TicketText.opens_ticket (map TicketText.strip lines))
      by (cbn [filter];
          destruct (TicketText.opens_ticket (TicketText.strip line));
          reflexivity).
    exact H.
Qed.

(** X16.  [_parse_ticket_text] never returns an empty ticket; the
    tickets that have a ['type'] are, in order, exactly the stripped
    lines containing both ['Adult'] and ['Age']; only the first ticket
    can lack a type (details read before the first such line), so the
    number of tickets is that of those lines or one more. *)
Theorem parsed_tickets_follow_opening_lines (text : TicketText.str) :
  let tickets := TicketText._parse_ticket_text text in
  Forall (fun t => TicketText.truthy t = true) tickets /\
  map TicketText.type (filter TicketText.typed tickets)
  = map Some (TicketText.opening_lines text) /\
  Forall (fun t => TicketText.typed t = true) (tl tickets) /\
  (List.length (TicketText.opening_lines text) <= List.length tickets
   <= S (List.length (TicketText.opening_lines text)))%nat.
Proof.
  cbn zeta. unfold TicketText._parse_ticket_text.
  assert (Hinit : TicketText.loop_invariant [] ([], TicketText.empty)).
  { unfold TicketText.loop_invariant, TicketText.types_so_far. cbn.
    repeat split; try constructor. intros H. contradiction. }
  pose proof (fold_invariant (TicketText.split_lines text) _ _ Hinit) as H.
  cbn [app] in H. fold (TicketText.opening_lines text) in H.
  destruct (fold_left TicketText.step (TicketText.split_lines text)
                      ([], TicketText.empty)) as [tickets cur].
  destruct (flush_invariant _ _ _ H) as (F1 & F2 & F3).
  split; [exact F1|]. split; [exact F2|]. split; [exact F3|].
  apply (f_equal (@List.length _)) in F2. rewrite !length_map in F2.
  rewrite <- F2.
  set (r := TicketText.flush tickets cur) in *.
  split; [apply filter_length_le|].
  destruct r as [|t ts]; [cbn; lia|]. cbn [tl] in F3.
  cbn [filter List.length].
  assert (Hts : filter TicketText.typed ts = ts).
  { clear -F3. induction F3 as [|t' ts' Ht _ IH]; [reflexivity|].
    cbn [filter]. rewrite Ht, IH. reflexivity. }
  destruct (TicketText.typed t); cbn [List.length]; rewrite Hts; lia.
Qed.

(** ** The two command-line entry points *)



(** X18.  [complete_qr_extractor.main] goes on to [process_pdf] exactly
    when both input files exist and the scale is positive; otherwise it
    exits with status 1, prints one line and leaves the file system as it
    was.  When it goes on, [process_pdf] gets [mask_awaiting = not
    no_mask], [main] adds no file of its own, and the run ends normally
    exactly when [process_pdf] returned and, if it reported success, the
    output file exists. *)
Theorem extractor_main_gate
  (dirname : string -> string)
  (process_pdf :
     string -> string -> string -> Q -> Z -> string -> option Z -> bool ->
     ExtractorCli.World -> outcome (bool * Z) * ExtractorCli.World)
  (args : ExtractorCli.Args) (w : ExtractorCli.World) :
  let rejected :=
    negb (ExtractorCli.path_exists w (ExtractorCli.pdf args))
    || negb (ExtractorCli.path_exists w (ExtractorCli.design args))
    || Qle_bool (ExtractorCli.qr_scale args) 0 in
  let result := ExtractorCli.main dirname process_pdf args w in
  (rejected = true ->
   fst result = Cli.Exit 1 /\
   ExtractorCli.files (snd result) = ExtractorCli.files w /\
   exists line,
     ExtractorCli.console (snd result) = ExtractorCli.console w ++ [line]) /\
  (rejected = false ->
   forall r w',
     process_pdf (ExtractorCli.pdf args) (ExtractorCli.design args)
                 (ExtractorCli.output args) (ExtractorCli.qr_scale args)
                 (ExtractorCli.qr_margin args)
                 (ExtractorCli.qr_position args)
                 (ExtractorCli.start_number args)
                 (negb (ExtractorCli.no_mask args))
                 (ExtractorCli.makedirs_for dirname
                    (ExtractorCli.output args) w) = (r, w') ->
     ExtractorCli.files (snd result) = ExtractorCli.files w' /\
     (fst result = Cli.Finished <->
      (exists n, r = Ok (false, n)) \/
      (exists n, r = Ok (true, n)) /\
      ExtractorCli.path_exists w' (ExtractorCli.output args) = true)).
Proof.
  cbn zeta. unfold ExtractorCli.main.
  destruct (negb (ExtractorCli.path_exists w (ExtractorCli.pdf args)));
    [split; [intros _; repeat split; eexists; reflexivity | discriminate]|].
  destruct (negb (ExtractorCli.path_exists w (ExtractorCli.design args)));
    [split; [intros _; repeat split; eexists; reflexivity | discriminate]|].
  destruct (Qle_bool (ExtractorCli.qr_scale args) 0);
    [split; [intros _; repeat split; eexists; reflexivity | discriminate]|].
  split; [discriminate|]. intros _ r w' Hrun. rewrite Hrun.
  destruct r as [[[|] n]|].
  - unfold ExtractorCli.report.
    change (ExtractorCli.path_exists (ExtractorCli.say_all ?l w') ?p)
      with (ExtractorCli.path_exists w' p).
    destruct (ExtractorCli.path_exists w' (ExtractorCli.output args));
      cbn; split; try reflexivity; split.
    + intros _. right. split; [exists n|]; reflexivity.
    + reflexivity.
    + discriminate.
    + intros [(k & Hk) | (_ & Hk)]; discriminate Hk.
  - cbn. split; [reflexivity|]. split; [|reflexivity].
    intros _. left. exists n. reflexivity.
  - cbn. split; [reflexivity|]. split; [discriminate|].
    intros [(k & Hk) | ((k & Hk) & _)]; discriminate Hk.
Qed.

Lemma extractor_main_gate_witness :
  let args :=
    ExtractorCli.mkArgs "t.pdf" "d.png" "o.pdf" 0 20 "both" None false in
  let w := ExtractorCli.mkWorld ["t.pdf"; "d.png"]%string [] in
  let result :=
    ExtractorCli.main (fun _ => EmptyString)
      (fun _ _ out _ _ _ _ _ w => (Ok (true, 3), ExtractorCli.create out w))
      args w in
  fst result = Cli.Exit 1 /\
  ExtractorCli.files (snd result) = ExtractorCli.files w.
Proof.
  cbn zeta.
  destruct (proj1 (extractor_main_gate (fun _ => EmptyString)
                     (fun _ _ out _ _ _ _ _ w =>
                        (Ok (true, 3), ExtractorCli.create out w))
                     (ExtractorCli.mkArgs "t.pdf" "d.png" "o.pdf" 0 20
                                          "both" None false)
                     (ExtractorCli.mkWorld ["t.pdf"; "d.png"]%string []))
                  eq_refl) as (Hexit & Hfiles & _).
  split; [exact Hexit | exact Hfiles].
Defined.

(** ** What the output pages carry *)

Section TicketPageFacts.

Variables Page Image Png : Type.
Variable page_rect : Page -> Q * Q.
Variable render_gray : Page -> outcome Image.
Variable pyzbar_decode : Image -> outcome (list Decoded).
Variable threshold_127 : Image -> outcome Image.
Variable utf8_decode : string -> outcome string.
Variable clip_png : Page -> Z -> Z -> Z -> Z -> outcome Png.
Variable png_size : Png -> Z * Z.
Variable pil_ok : Picture Png -> bool.
Variable insert_ok : Placement Png -> bool.
Variable save_ok : list (OutPage Png) -> bool.

Local Abbreviation ticket := (make_ticket Png png_size pil_ok insert_ok).
Local Abbreviation run :=
  (process_pdf Page Image Png page_rect render_gray pyzbar_decode
     threshold_127 utf8_decode clip_png png_size pil_ok insert_ok save_ok).


(** X20.  In a completed run with a starting number and a placement mode
    that places something, no two pages show the same stamped text, and
    every copy on a page shows that page's text. *)
Theorem stamped_texts_distinct
  (doc : list Page) (dw dh : Z) (scale : Q) (margin : Z) (position : string)
  (start : Z) (mask : bool) (out : list (OutPage Png)) (ok : bool) (n : Z)
  (Hpos : In position ["left"%string; "right"%string; "both"%string])
  (Hrun : run doc dw dh scale margin position (Some start) mask
          = Ok (out, (ok, n))) :
  NoDup (map ticket_text_of out) /\
  Forall (fun page =>
            Forall (fun pl => stamped_text (picture pl) = ticket_text_of page)
                   (placed page)) out.
Proof.
  destruct (process_pdf_inv _ _ _ _ _ _ _ _ _ _ _ _ _ _ _ _ _ _ _ _ _ _ _ _
              Hrun) as (_ & bss & _ & Htickets).
  destruct (make_tickets_spec _ _ _ _ _ _ _ _ _ _ _ _ _ _ _ _ Htickets)
    as (_ & new & Hout & Hall).
  cbn [app] in Hout. subst out.
  destruct (tickets_show _ _ _ _ _ _ _ _ _ _ _ _ _ _ Hall)
    as (_ & Hpages & Hshow).
  destruct (Hshow (positions_known _ Hpos)) as (_ & _ & Htext).
  split.
  - rewrite Htext. cbn [option_map].
    apply Finite.Injective_map_NoDup.
    + intros a b E. injection E as E. apply format_03d_injective in E. lia.
    + rewrite counter_values_seq.
      apply Finite.Injective_map_NoDup; [|apply seq_NoDup].
      intros a b E. lia.
  - eapply Forall_impl; [|exact Hpages].
    intros page (_ & pic & Hpics & _). unfold ticket_text_of.
    destruct (placed page) as [|pl pls]; [constructor|].
    inversion Hpics as [|? ? Hpl _]; subst.
    eapply Forall_impl; [|exact Hpics].
    intros pl' Hpl'. rewrite Hpl'. reflexivity.
Qed.

End TicketPageFacts.


Lemma stamped_texts_distinct_witness :
  exists out,
    Sample.run "both" (Some 7) false = Ok (out, (true, 3)) /\
    NoDup (map ticket_text_of out).
Proof.
  eexists. split; [vm_compute; reflexivity|].
  refine (proj1
    (stamped_texts_distinct Sample.Page Sample.Page Sample.Png
       Sample.page_rect Ok Ok Ok Ok Sample.clip_png Sample.png_size
       (fun _ => true) (fun _ => true) (fun _ => true)
       Sample.doc 600 800 1 20 "both" 7 false _ true 3 _ _)).
  - right. right. left. reflexivity.
  - vm_compute. reflexivity.
Defined.

(** ** The complete box and its symbol *)

Lemma py_int_min_above (k : Z) (a b : Q) :
  0 <= k -> (inject_Z k <= a)%Q -> (inject_Z k <= b)%Q ->
  k <= py_int (py_min a b).
Proof.
  intros Hk Ha Hb.
  assert (Hm : (inject_Z k <= py_min a b)%Q)
    by (unfold py_min; destruct (Qle_bool a b); assumption).
  apply py_int_above; [|exact Hm].
  apply Qle_trans with (inject_Z k); [apply inject_Z_nonneg; exact Hk|].
  exact Hm.
Qed.

Lemma room_on_page (v e b : Z) (page : Q) :
  (inject_Z (v + e) <= page)%Q -> (inject_Z (v + e - b) <= page - inject_Z b)%Q.
Proof.
  intros H. unfold Qminus. rewrite <- inject_Z_opp.
  replace (v + e - b) with ((v + e) + - b) by lia.
  rewrite inject_Z_plus. apply Qplus_le_l. exact H.
Qed.

(** X21.  The complete box contains the symbol it was expanded from: for
    a region that lies wholly on the page, the box starts at or before
    the region on both axes and ends at or after it; it starts exactly
    [side_padding] to the left and [text_height] above unless the page
    edge is nearer; and it is never wider than the region plus twice the
    side padding nor taller than the region plus [text_height] and
    [bottom_padding]. *)
Theorem complete_box_contains_symbol
  (Img : Type) (page_w page_h : Q) (qr : Geometry.QRRegion)
  (Hx : 0 <= Geometry.qr_x qr) (Hy : 0 <= Geometry.qr_y qr)
  (Hw : 0 <= Geometry.qr_width qr) (Hh : 0 <= Geometry.qr_height qr)
  (Hxw : (inject_Z (Geometry.qr_x qr + Geometry.qr_width qr) <= page_w)%Q)
  (Hyh : (inject_Z (Geometry.qr_y qr + Geometry.qr_height qr) <= page_h)%Q) :
  let b := Geometry.expand_box (Img:=Img) page_w page_h qr in
  Geometry.x b = Z.max 0 (Geometry.qr_x qr - 20) /\
  Geometry.y b = Z.max 0 (Geometry.qr_y qr - 80) /\
  Geometry.x b <= Geometry.qr_x qr /\
  Geometry.y b <= Geometry.qr_y qr /\
  Geometry.qr_x qr + Geometry.qr_width qr
  <= Geometry.x b + Geometry.width b /\
  Geometry.qr_y qr + Geometry.qr_height qr
  <= Geometry.y b + Geometry.height b /\
  Geometry.width b <= Geometry.qr_width qr + 40 /\
  Geometry.height b <= Geometry.qr_height qr + 90.
Proof.
  cbn zeta. unfold Geometry.expand_box.
  cbn [Geometry.x Geometry.y Geometry.width Geometry.height].
  unfold Geometry.side_padding, Geometry.text_height,
    Geometry.bottom_padding.
  set (bx := Z.max 0 (Z.max 0 (Geometry.qr_x qr - 20))).
  set (by_ := Z.max 0 (Z.max 0 (Geometry.qr_y qr - 80))).
  assert (Hbx : bx = Z.max 0 (Geometry.qr_x qr - 20)) by (subst bx; lia).
  assert (Hby : by_ = Z.max 0 (Geometry.qr_y qr - 80)) by (subst by_; lia).
  assert (Hside :
    forall (v e ext b : Z) (page : Q),
      0 <= b <= v -> 0 <= e -> v + e - b <= ext ->
      (inject_Z (v + e) <= page)%Q ->
      v + e <= b + py_int (py_min (inject_Z ext) (page - inject_Z b))
      /\ b + py_int (py_min (inject_Z ext) (page - inject_Z b)) <= b + ext).
  { intros v e ext b page Hb He Hext Hpage. split.
    - assert (v + e - b
              <= py_int (py_min (inject_Z ext) (page - inject_Z b))).
      { apply py_int_min_above; [lia | | apply room_on_page; exact Hpage].
        rewrite <- Zle_Qle. exact Hext. }
      lia.
    - assert (Hroom : (0 <= page - inject_Z b)%Q).
      { apply Qle_trans with (inject_Z (v + e - b));
          [apply inject_Z_nonneg; lia | apply room_on_page; exact Hpage]. }
      assert (Hext0 : (0 <= inject_Z ext)%Q)
        by (apply inject_Z_nonneg; lia).
      pose proof (py_min_nonneg _ _ Hext0 Hroom) as Hm.
      rewrite py_int_floor by exact Hm.
      assert (Qfloor (py_min (inject_Z ext) (page - inject_Z b)) <= ext).
      { rewrite <- (Qfloor_Z ext) at 2. apply Qfloor_resp_le.
        unfold py_min. destruct (Qle_bool (inject_Z ext) _) eqn:E.
        - apply Qle_refl.
        - apply Qlt_le_weak, Qnot_le_lt. intros Hle.
          apply Qle_bool_iff in Hle. congruence. }
      lia. }
  destruct (Hside (Geometry.qr_x qr) (Geometry.qr_width qr)
              (Geometry.qr_width qr + 2 * 20) bx page_w
              ltac:(lia) Hw ltac:(lia) Hxw) as [X1 X2].
  destruct (Hside (Geometry.qr_y qr) (Geometry.qr_height qr)
              (Geometry.qr_height qr + 80 + 10) by_ page_h
              ltac:(lia) Hh ltac:(lia) Hyh) as [Y1 Y2].
  repeat split; lia.
Qed.

Lemma complete_box_contains_symbol_witness :
  let qr := Geometry.mkQR 100 200 50 50 "T-1" in
  let b := Geometry.expand_box (Img:=unit) 600 800 qr in
  Geometry.x b <= 100 /\ 100 + 50 <= Geometry.x b + Geometry.width b.
Proof.
  cbn zeta.
  destruct (complete_box_contains_symbol unit 600 800
              (Geometry.mkQR 100 200 50 50 "T-1")
              ltac:(cbn; lia) ltac:(cbn; lia) ltac:(cbn; lia)
              ltac:(cbn; lia) ltac:(unfold Qle; cbn; lia)
              ltac:(unfold Qle; cbn; lia))
    as (_ & _ & Hx & _ & Hr & _).
  split; [exact Hx | exact Hr].
Defined.

(** ** A successful direct decode *)

Section DirectDecodeFacts.

Variables Image Contour : Type.
Variable pyzbar_decode : Image -> outcome (list Decoded).
Variable utf8_decode : string -> outcome string.
Variable cvtColor_gray threshold_127 : Image -> outcome Image.
Variable canny_contours : Image -> outcome (list Contour).
Variable approx_quad : Contour -> outcome (option Geometry.Rect).
Variable _is_likely_qr : Image -> Geometry.Rect -> bool.

Lemma append_decoded_all (symbols : list Decoded) (texts : list string) :
  Forall2 (fun symbol text => data_of utf8_decode symbol = Ok text)
          symbols texts ->
  forall st,
    append_decoded utf8_decode symbols st
    = (Ok tt,
       mkFrame (regions st
                ++ map (fun p => mkRegion (rect (fst p)) (snd p))
                       (combine symbols texts))
               (stdout st) (ran st)).
Proof.
  unfold append_decoded.
  induction 1 as [|symbol text symbols texts Hone _ IH]; intros st.
  - cbn. rewrite app_nil_r. destruct st; reflexivity.
  - cbn [for_each combine map]. unfold Detector.seq at 1.
    unfold Detector.seq at 1. unfold lift. rewrite Hone.
    unfold append at 1. rewrite IH. cbn [regions stdout ran fst snd].
    rewrite <- app_assoc. reflexivity.
Qed.

(** X22.  When the direct decode returns at least one symbol and every
    payload decodes, [_detect_qr_codes] returns exactly one region per
    symbol, in the decoder's order, with the symbol's rectangle and its
    decoded text; no other method runs and nothing is printed. *)
Theorem direct_decode_reports_every_symbol
  (image : Image) (symbols : list Decoded) (texts : list string)
  (Hdecode : pyzbar_decode image = Ok symbols)
  (Hsome : symbols <> [])
  (Htexts : Forall2 (fun symbol text => data_of utf8_decode symbol = Ok text)
                    symbols texts) :
  let found := map (fun p => mkRegion (rect (fst p)) (snd p))
                   (combine symbols texts) in
  Detector.detect Image Contour pyzbar_decode utf8_decode cvtColor_gray
                  threshold_127 canny_contours approx_quad _is_likely_qr
                  image
  = (Ok found, mkFrame found [] [DirectDecode]) /\
  List.length found = List.length symbols.
Proof.
  cbn zeta. split.
  - unfold Detector.detect, _detect_qr_codes.
    unfold Detector.seq at 1. unfold mark at 1. cbn [regions stdout ran app].
    unfold Detector.seq at 1. unfold try_except, direct_body.
    unfold Detector.seq at 1. unfold lift at 1. rewrite Hdecode.
    rewrite (append_decoded_all _ _ Htexts). cbn [regions stdout ran app].
    destruct Htexts as [|symbol text symbols texts Hone Hrest];
      [contradiction|].
    reflexivity.
  - rewrite length_map, length_combine, (Forall2_length Htexts).
    apply Nat.min_id.
Qed.

End DirectDecodeFacts.

Lemma direct_decode_reports_every_symbol_witness :
  Detector.detect Sample.Page unit Ok Ok Ok Ok (fun _ => Ok [])
    (fun _ => Ok None) (fun _ _ => false)
    [mkDecoded (Geometry.mkRect 200 400 100 100) "T-1";
     mkDecoded (Geometry.mkRect 700 400 100 100) "T-2"]
  = (Ok [mkRegion (Geometry.mkRect 200 400 100 100) "T-1";
         mkRegion (Geometry.mkRect 700 400 100 100) "T-2"],
     mkFrame [mkRegion (Geometry.mkRect 200 400 100 100) "T-1";
              mkRegion (Geometry.mkRect 700 400 100 100) "T-2"]
             [] [DirectDecode]).
Proof.
  refine (proj1 (direct_decode_reports_every_symbol Sample.Page unit Ok Ok
                   Ok Ok (fun _ => Ok []) (fun _ => Ok None)
                   (fun _ _ => false)
                   [mkDecoded (Geometry.mkRect 200 400 100 100) "T-1";
                    mkDecoded (Geometry.mkRect 700 400 100 100) "T-2"]
                   [mkDecoded (Geometry.mkRect 200 400 100 100) "T-1";
                    mkDecoded (Geometry.mkRect 700 400 100 100) "T-2"]
                   ["T-1"; "T-2"]%string eq_refl _ _)).
  - discriminate.
  - repeat constructor.
Defined.
